(** * opsview-html-email: a shallow embedding of [opsview-html-email.js]

    The script reads the process environment and the command line,
    classifies the notification, builds a subject, prints the mail
    headers, renders a body (inline fallback first, then the template
    file of the type) and prints it.

    Modelling choices:
    - [process.env] is a finite map from names to strings;
    - a JavaScript value that is a string or [undefined]/[null] is an
      [option string] ([None] for [undefined] and [null], which the
      script only tests for truthiness or formats with [%s]);
    - [console.log]/[console.error] append one line to the standard
      output / error stream, [process.exit] stops the run: both are
      threaded by a small monad;
    - the collaborators the script [require]s (ejs, fs, path, JSON,
      posix-getopt's result stream, latest, package.json) are Section
      variables. *)

From Stdlib Require Import String Ascii ZArith List.
From stdpp Require Import gmap strings list fin_maps.

Local Open Scope string_scope.
Local Open Scope Z_scope.
Local Open Scope stdpp_scope.

(** ** JavaScript strings and values *)

Module Js.

(** [undefined] (and [null]) or a string. *)
Definition value := option string.

(** [!!v] for a string-or-undefined value: the empty string,
    [undefined] and [null] are falsy. *)
Definition truthy (v : value) : bool :=
  match v with
  | Some s => negb (String.eqb s "")
  | None => false
  end.

(** [String(v)], as the [%s] directive of [util.format] applies it. *)
Definition to_string (v : value) : string :=
  match v with
  | Some s => s
  | None => "undefined"
  end.

(** [key.indexOf(p) === 0]. *)
Fixpoint starts_with (p key : string) : bool :=
  match p with
  | EmptyString => true
  | String a p' =>
      match key with
      | EmptyString => false
      | String b key' => if Ascii.eqb a b then starts_with p' key' else false
      end
  end.

Fixpoint drop (n : nat) (s : string) : string :=
  match n with
  | O => s
  | S n' => match s with
            | EmptyString => EmptyString
            | String _ s' => drop n' s'
            end
  end.

(** [key.replace(/^p/, '')] for a literal prefix [p]: the first match
    anchored at the start is removed, a string without the prefix is
    returned as it is. *)
Definition replace_prefix (p key : string) : string :=
  if starts_with p key then drop (String.length p) key else key.

(** Assignment [o[k] = v] on an object created by the literal [{}],
    with a string [v]. The object inherits from [Object.prototype],
    whose accessor [__proto__] takes the assignment to that one key:
    its setter ignores a value that is neither an object nor [null],
    and no own property is created. Every other key becomes (or
    updates) an own property. *)
Definition set (o : gmap string string) (k v : string) : gmap string string :=
  if decide (k = "__proto__") then o else <[k:=v]> o.

(** Property read [o.k] on such an object, for a key that
    [Object.prototype] does not define. *)
Definition get (o : gmap string string) (k : string) : value := o !! k.

(** [util.format(f, a1, ..., an)] restricted to the directives the
    script uses: [%s] takes the next argument, [%%] is a percent sign,
    a directive without an argument is left as it is, and arguments
    left over are appended, separated by spaces. *)
Fixpoint format_args (f : string) (args : list value) : string :=
  match f with
  | EmptyString =>
      fold_right (fun a r => " " +:+ to_string a +:+ r) "" args
  | String c f' =>
      match f' with
      | String d f'' =>
          if Ascii.eqb c "%"%char && Ascii.eqb d "s"%char then
            match args with
            | a :: args' => to_string a +:+ format_args f'' args'
            | [] => String c (String d (format_args f'' []))
            end
          else if Ascii.eqb c "%"%char && Ascii.eqb d "%"%char then
            String "%"%char (format_args f'' args)
          else String c (format_args f' args)
      | EmptyString => String c (format_args f' args)
      end
  end.

(** With the format string as only argument, it is returned as it is. *)
Definition format (f : string) (args : list value) : string :=
  match args with
  | [] => f
  | _ => format_args f args
  end.

End Js.

(** ** The environment snapshot (lines 77-81) *)

Definition NAGIOS_ : string := "NAGIOS_".

(** The callback of [Object.keys(process.env).forEach]. *)
Definition snapshot_step (key val : string) (nagios : gmap string string)
  : gmap string string :=
  if Js.starts_with NAGIOS_ key
  then Js.set nagios (Js.replace_prefix NAGIOS_ key) val
  else nagios.

(** [nagios] after the loop over all keys of [process.env]. The keys
    are distinct and so are their stripped names, so the order in which
    the loop visits them does not change the properties it leaves. *)
Definition snapshot (env : gmap string string) : gmap string string :=
  map_fold snapshot_step ∅ env.

(** ** The type classifier (lines 92-100) *)

Definition classify (env nagios : gmap string string) : string :=
  if negb (Js.truthy (env !! "NAGIOS_SERVICEATTEMPT")) then "host"
  else if Js.truthy (Js.get nagios "NOTIFICATIONAUTHOR") then "ack"
  else "service".

Definition type_of (env : gmap string string) : string :=
  classify env (snapshot env).

(** ** Output streams and [process.exit] *)

Record streams := { stdout : list string; stderr : list string }.

(** A step either goes on with a value or has called [process.exit]. *)
Inductive outcome (A : Type) :=
| Continue (a : A)
| Exited (code : Z).
Arguments Continue {A} a.
Arguments Exited {A} code.

Definition M (A : Type) : Type := streams -> outcome A * streams.

(** [M] is a monad; stdpp's [x ← m; k] and [m ;; k] sequence its steps,
    and a step after [process.exit] is not run. *)
#[export] Instance M_ret : MRet M := fun A a s => (Continue a, s).

#[export] Instance M_bind : MBind M := fun A B k m s =>
  match m s with
  | (Continue a, s') => k a s'
  | (Exited code, s') => (Exited code, s')
  end.

(** [console.log(f, a1, ..., an)]: one line on standard output. *)
Definition console_log (f : string) (args : list Js.value) : M unit :=
  fun s => (Continue tt,
            {| stdout := stdout s ++ [Js.format f args]; stderr := stderr s |}).

(** [console.error(f, a1, ..., an)]: one line on the error stream. *)
Definition console_error (f : string) (args : list Js.value) : M unit :=
  fun s => (Continue tt,
            {| stdout := stdout s; stderr := stderr s ++ [Js.format f args] |}).

Definition process_exit {A} (code : Z) : M A := fun s => (Exited code, s).

(** [if (c) { body }] with no else branch. *)
Definition when (c : bool) (body : M unit) : M unit :=
  if c then body else mret tt.

(** Both streams are empty when the script starts. *)
Definition streams0 : streams := {| stdout := []; stderr := [] |}.

Definition run {A} (m : M A) : outcome A * streams := m streams0.

(** ** The script *)

(** Line feed, the separator of [usage()]. *)
Definition LF : string := String (ascii_of_nat 10) EmptyString.

Definition usage : string :=
  String.concat LF [
    "Usage: opsview-html-email [options] [arg1] [arg2] ...";
    "";
    "This command is meant to be run from nagios when a service or host";
    "experiences problems.  The output will be suitable for passing to";
    "a mail program that takes raw email data like `mailx -t`";
    "";
    "Options";
    "  -a, --address <email>      the email address to send mail to, defaults to env NAGIOS_CONTACTEMAIL";
    "  -h, --help                 print this message and exit";
    "  -s, --subject <subject>    the email subject to use, defaults to _subject for the host/service, or default nagios subject";
    "  -t, --template-dir <dir>   dir to find ejs template files, defaults to builtin templates";
    "  -u, --updates              check for available updates on npm";
    "  -v, --version              print the version number and exit"
  ].

(** What [parser.getopt()] returns for the option string
    [a:(address)h(help)s:(subject)t:(template-dir)u(updates)v(version)]:
    one of the six options, with [optarg] where the option string has
    a colon, or ['?'] (an unrecognised option or a missing argument),
    which the [switch] sends to its [default] case. The diagnostic that
    the parser itself prints for ['?'] is not a line of the script and
    is not part of the modelled error stream. *)
Inductive parsed_option :=
| opt_a (optarg : string)
| opt_h
| opt_s (optarg : string)
| opt_t (optarg : string)
| opt_u
| opt_v
| opt_unknown.

(** [opts] (lines 51-55). *)
Record options := {
  subject : Js.value;
  templatedir : string;
  to : Js.value
}.

(** [package.json], of which the script reads [version]. *)
Record package_json := { name : string; version : string }.

(** [data] (lines 82-86), and [data.d] once line 157 has set it. *)
Record notification := {
  args : list string;
  nagios : gmap string string;
  package : package_json;
  d : Js.value
}.

(** A call that returns or throws an error with a [message]. *)
Inductive try (A : Type) :=
| returns (a : A)
| throws (message : string).
Arguments returns {A} a.
Arguments throws {A} message.

(** The subject of lines 119-143, for [opts.subject] falsy. *)
Definition default_subject (type : string) (data : notification) : string :=
  if String.eqb type "host" then
    Js.format "%s is %s"
      [Js.get (nagios data) "HOSTADDRESS"; Js.get (nagios data) "HOSTSTATE"]
  else if String.eqb type "service" then
    Js.format "%s: %s - %s"
      [Js.get (nagios data) "SERVICESTATE"; Js.get (nagios data) "HOSTADDRESS";
       Js.get (nagios data) "SERVICEDESC"]
  else if String.eqb type "ack" then
    Js.format "%s: %s - %s"
      [Js.get (nagios data) "NOTIFICATIONTYPE"; Js.get (nagios data) "HOSTADDRESS";
       Js.get (nagios data) "SERVICEDESC"]
  else
    Js.format "unknown type - %s" [Some type].

(** The fallback template of line 156. *)
Definition inline_templ : string :=
  "<html><body><pre><%= d %></pre></body></html>".

(** The options whose case ends the run: [-h], [-u], [-v] and the
    [default] case. *)
Definition ends_run (o : parsed_option) : bool :=
  match o with
  | opt_h | opt_u | opt_v | opt_unknown => true
  | opt_a _ | opt_s _ | opt_t _ => false
  end.

(** ** Sample collaborators and environments

    Concrete stand-ins for the libraries, used where a statement is
    evaluated on an example. *)

Definition sample_package : package_json :=
  {| name := "opsview-html-email"; version := "0.0.0" |}.

Definition sample_path_join (a b : string) : string := a +:+ "/" +:+ b.

Definition sample_stringify (data : notification) : string := "{}".

(** A renderer that returns the template text as it is. *)
Definition sample_render (templ : string) (data : notification)
  : try string := returns templ.

(** A file system without template files. *)
Definition no_file (file : string) : try string :=
  throws ("ENOENT: no such file or directory, open '" +:+ file +:+ "'").

Definition sample_checkupdate (p : package_json) : Z * string :=
  (0, "you are running the latest version").

(** The environments of the examples. *)
Definition host_env : gmap string string :=
  {[ "NAGIOS_CONTACTEMAIL" := "a@b.com";
     "NAGIOS_HOSTADDRESS" := "web1";
     "NAGIOS_HOSTSTATE" := "DOWN" ]}.

Definition service_env : gmap string string :=
  {[ "NAGIOS_CONTACTEMAIL" := "a@b.com";
     "NAGIOS_SERVICEATTEMPT" := "1";
     "NAGIOS_SERVICESTATE" := "CRITICAL";
     "NAGIOS_HOSTADDRESS" := "web1";
     "NAGIOS_SERVICEDESC" := "disk" ]}.

Definition ack_env : gmap string string :=
  <["NAGIOS_NOTIFICATIONAUTHOR" := "bob"]>
    (<["NAGIOS_NOTIFICATIONTYPE" := "ACKNOWLEDGEMENT"]> service_env).

(** The service example with [NAGIOS_NOTIFICATIONAUTHOR] set to the
    empty string. *)
Definition empty_author_env : gmap string string :=
  <["NAGIOS_NOTIFICATIONAUTHOR" := ""]> service_env.

(** [NAGIOS_SERVICEATTEMPT] set, but to the empty string. *)
Definition empty_attempt_env : gmap string string :=
  {[ "NAGIOS_SERVICEATTEMPT" := "";
     "NAGIOS_NOTIFICATIONAUTHOR" := "bob" ]}.

(** A variable whose name is the prefix followed by [__proto__]. *)
Definition proto_env : gmap string string :=
  {[ "NAGIOS___proto__" := "x" ]}.

(** Only the recipient is set. *)
Definition bare_env : gmap string string :=
  {[ "NAGIOS_CONTACTEMAIL" := "a@b.com" ]}.

(** A file system that holds the same template under every path but
    [missing]. *)
Definition all_but (missing file : string) : try string :=
  if String.eqb file missing then no_file file
  else returns "<p>alert</p>".

Section Script.

(** [package.json] and [__dirname]. *)
Variable the_package : package_json.
Variable dirname : string.
(** [path.join] of two segments. *)
Variable path_join : string -> string -> string.
(** [JSON.stringify(data, null, 2)]. *)
Variable json_stringify : notification -> string.
(** [ejs.render(templ, data)]. *)
Variable ejs_render : string -> notification -> try string.
(** [fs.readFileSync(file, 'utf-8')]. *)
Variable fs_readFileSync : string -> try string.
(** [require('latest').checkupdate]: the [ret] and [msg] it hands to
    its callback. *)
Variable checkupdate : package_json -> Z * string.

(** The [while] loop over [parser.getopt()] (lines 57-72). For [-u]
    the script returns from the module and the callback, when it
    fires, prints [msg] and exits with [ret]. *)
Fixpoint getopt_loop (parsed : list parsed_option) (opts : options)
  : M options :=
  match parsed with
  | [] => mret opts
  | option :: rest =>
      match option with
      | opt_a optarg =>
          getopt_loop rest
            {| subject := subject opts; templatedir := templatedir opts;
               to := Some optarg |}
      | opt_h => console_log usage [] ;; process_exit 0
      | opt_s optarg =>
          getopt_loop rest
            {| subject := Some optarg; templatedir := templatedir opts;
               to := to opts |}
      | opt_t optarg =>
          getopt_loop rest
            {| subject := subject opts; templatedir := optarg;
               to := to opts |}
      | opt_u =>
          let (code, msg) := checkupdate the_package in
          console_log msg [] ;; process_exit code
      | opt_v => console_log (version the_package) [] ;; process_exit 0
      | opt_unknown => console_error usage [] ;; process_exit 1
      end
  end.

Definition initial_options (env : gmap string string) : options :=
  {| subject := None;
     templatedir := path_join dirname "templates";
     to := env !! "NAGIOS_CONTACTEMAIL" |}.

(** Lines 156-163: the inline template rendered into [message]. *)
Definition render_default (data : notification) : M Js.value :=
  match ejs_render inline_templ data with
  | returns text => mret (Some text)
  | throws e_message =>
      let message :=
        Js.format "error rendering default template!: %s" [Some e_message] in
      console_error message [] ;;
      mret (Some message)
  end.

(** Lines 167-175: the template file of the type; [message] is
    assigned only when both the read and the render return. *)
Definition render_file (templfile : string) (data : notification)
    (message : Js.value) : M Js.value :=
  match fs_readFileSync templfile with
  | returns templ =>
      match ejs_render templ data with
      | returns text => mret (Some text)
      | throws e_message =>
          console_error "template %s error: %s"
            [Some templfile; Some e_message] ;;
          mret message
      end
  | throws e_message =>
      console_error "template %s error: %s"
        [Some templfile; Some e_message] ;;
      mret message
  end.

(** Lines 152-175. [var message;] starts as [undefined]. *)
Definition render_message (type : string) (opts : options)
    (data : notification) : M Js.value :=
  let message : Js.value := None in
  message ← render_default data;
  let templfile := path_join (templatedir opts) (type +:+ ".html.ejs") in
  render_file templfile data message.

(** [data] as lines 82-86 build it. *)
Definition initial_data (env : gmap string string) (argv_rest : list string)
  : notification :=
  {| args := argv_rest; nagios := snapshot env; package := the_package;
     d := None |}.

(** Line 157: [data.d = JSON.stringify(data, null, 2)]. *)
Definition with_dump (data : notification) : notification :=
  {| args := args data; nagios := nagios data; package := package data;
     d := Some (json_stringify data) |}.

(** Lines 119-143: [opts.subject] is filled in when it is falsy. *)
Definition with_subject (type : string) (data : notification)
    (opts : options) : options :=
  if negb (Js.truthy (subject opts))
  then {| subject := Some (default_subject type data);
          templatedir := templatedir opts; to := to opts |}
  else opts.

(** The whole script, for a process environment [env], the results
    [parsed] of the option parser and the positional arguments
    [argv_rest] left after them. *)
Definition main (env : gmap string string) (parsed : list parsed_option)
    (argv_rest : list string) : M unit :=
  opts ← getopt_loop parsed (initial_options env);
  let data := initial_data env argv_rest in
  let type := classify env (nagios data) in
  when (negb (Js.truthy (Some type)))
    (console_error "a type must be specified as the first argument!" [] ;;
     console_error "" [] ;;
     console_error usage [] ;;
     process_exit 1) ;;
  when (negb (Js.truthy (to opts)))
    (console_error
       "env NAGIOS_CONTACTEMAIL or `-a <address>` must be supplied!" [] ;;
     console_error "" [] ;;
     console_error usage [] ;;
     process_exit 1) ;;
  let opts := with_subject type data opts in
  console_log "To: %s" [to opts] ;;
  console_log "Reply-To: %s" [to opts] ;;
  console_log "Subject: %s" [subject opts] ;;
  console_log "Content-Type: text/html" [] ;;
  console_log "" [] ;;
  let data := with_dump data in
  message ← render_message type opts data;
  console_log (Js.to_string message) [].

(** * Properties *)

(** ** Strings *)

Lemma append_cons (c : ascii) (s r : string) :
  String c s +:+ r = String c (s +:+ r).
Proof. reflexivity. Qed.

Lemma append_empty_r (s : string) : s +:+ "" = s.
Proof.
  induction s as [|c s IH]; [reflexivity |].
  now rewrite append_cons, IH.
Qed.

Lemma append_inj_r (p r1 r2 : string) : p +:+ r1 = p +:+ r2 -> r1 = r2.
Proof.
  induction p as [|c p IH]; intros H; [exact H |].
  rewrite !append_cons in H. injection H as H. now apply IH.
Qed.

Lemma starts_with_append (p r : string) : Js.starts_with p (p +:+ r) = true.
Proof.
  induction p as [|c p IH]; [reflexivity |].
  rewrite append_cons. simpl. now rewrite Ascii.eqb_refl.
Qed.

Lemma drop_append (p r : string) : Js.drop (String.length p) (p +:+ r) = r.
Proof.
  induction p as [|c p IH]; [reflexivity |].
  rewrite append_cons. exact IH.
Qed.

Lemma starts_with_split (p key : string) :
  Js.starts_with p key = true -> key = p +:+ Js.drop (String.length p) key.
Proof.
  revert key. induction p as [|c p IH]; intros key; simpl; [reflexivity |].
  destruct key as [|b key]; [discriminate |].
  destruct (Ascii.eqb c b) eqn:E; [| discriminate].
  apply Ascii.eqb_eq in E. subst b. intros H.
  rewrite append_cons. f_equal. now apply IH.
Qed.

Lemma replace_prefix_append (p r : string) : Js.replace_prefix p (p +:+ r) = r.
Proof.
  unfold Js.replace_prefix. rewrite starts_with_append. apply drop_append.
Qed.

(** A key passes the test of line 79 exactly when it is the prefix
    followed by some rest, and line 80 then computes that rest. *)
Lemma starts_with_iff (p key : string) :
  Js.starts_with p key = true <-> exists r, key = p +:+ r.
Proof.
  split.
  - intros H. eexists. now apply starts_with_split.
  - intros [r ->]. apply starts_with_append.
Qed.

(** ** The snapshot *)

(** What the loop of lines 78-81 leaves in [nagios]: the value of the
    prefixed variable under every key but [__proto__], which never
    becomes a property. *)
Lemma snapshot_lookup (env : gmap string string) (k : string) :
  snapshot env !! k =
  if decide (k = "__proto__") then None else env !! (NAGIOS_ +:+ k).
Proof.
  unfold snapshot. revert k.
  apply (map_fold_weak_ind
    (fun (r m : gmap string string) => forall k : string,
       r !! k = if decide (k = "__proto__") then None
                else m !! (NAGIOS_ +:+ k))).
  - intros k. rewrite !lookup_empty. now destruct (decide _).
  - intros i x m r Hfresh IH k. unfold snapshot_step.
    destruct (Js.starts_with NAGIOS_ i) eqn:Hpre.
    + apply starts_with_iff in Hpre as [rest ->].
      rewrite replace_prefix_append. unfold Js.set.
      destruct (decide (rest = "__proto__")) as [-> | Hrest].
      * rewrite IH. destruct (decide (k = "__proto__")) as [| Hk]; [reflexivity |].
        rewrite lookup_insert_ne; [reflexivity |].
        intros H. apply append_inj_r in H. congruence.
      * destruct (decide (rest = k)) as [-> | Hne].
        -- rewrite !lookup_insert_eq. now destruct (decide (k = "__proto__")).
        -- rewrite lookup_insert_ne by exact Hne. rewrite IH.
           destruct (decide (k = "__proto__")); [reflexivity |].
           rewrite lookup_insert_ne; [reflexivity |].
           intros H. apply append_inj_r in H. congruence.
    + rewrite IH. destruct (decide (k = "__proto__")); [reflexivity |].
      rewrite lookup_insert_ne; [reflexivity |].
      intros ->. rewrite starts_with_append in Hpre. discriminate.
Qed.

Lemma snapshot_lookup_ne (env : gmap string string) (k : string) :
  k <> "__proto__" -> snapshot env !! k = env !! (NAGIOS_ +:+ k).
Proof. intros H. rewrite snapshot_lookup. now destruct (decide _). Qed.

(** ** The classifier *)

Lemma type_of_falsy_attempt (env : gmap string string) :
  Js.truthy (env !! "NAGIOS_SERVICEATTEMPT") = false -> type_of env = "host".
Proof. intros H. unfold type_of, classify. now rewrite H. Qed.

Lemma type_of_truthy_attempt (env : gmap string string) :
  Js.truthy (env !! "NAGIOS_SERVICEATTEMPT") = true ->
  type_of env =
  if Js.truthy (env !! "NAGIOS_NOTIFICATIONAUTHOR") then "ack" else "service".
Proof.
  intros H. unfold type_of, classify, Js.get. rewrite H. simpl.
  now rewrite (snapshot_lookup_ne env "NOTIFICATIONAUTHOR").
Qed.

Lemma type_of_cases (env : gmap string string) :
  type_of env = "host" \/ type_of env = "ack" \/ type_of env = "service".
Proof.
  unfold type_of, classify.
  destruct (negb _); [now left |].
  destruct (Js.truthy _); [right; now left | right; now right].
Qed.

Lemma type_of_truthy (env : gmap string string) :
  Js.truthy (Some (type_of env)) = true.
Proof. destruct (type_of_cases env) as [-> | [-> | ->]]; reflexivity. Qed.

(** ** Formatting *)

Lemma format_s_is_s (a b : Js.value) :
  Js.format "%s is %s" [a; b] = Js.to_string a +:+ " is " +:+ Js.to_string b.
Proof. cbn. now rewrite append_empty_r. Qed.

Lemma format_s_s_s (a b c : Js.value) :
  Js.format "%s: %s - %s" [a; b; c] =
  Js.to_string a +:+ ": " +:+ Js.to_string b +:+ " - " +:+ Js.to_string c.
Proof. cbn. now rewrite append_empty_r. Qed.

Lemma format_To (v : Js.value) :
  Js.format "To: %s" [v] = "To: " +:+ Js.to_string v.
Proof. cbn. now rewrite append_empty_r. Qed.

Lemma format_Reply_To (v : Js.value) :
  Js.format "Reply-To: %s" [v] = "Reply-To: " +:+ Js.to_string v.
Proof. cbn. now rewrite append_empty_r. Qed.

Lemma format_Subject (v : Js.value) :
  Js.format "Subject: %s" [v] = "Subject: " +:+ Js.to_string v.
Proof. cbn. now rewrite append_empty_r. Qed.

Lemma format_default_error (e : string) :
  Js.format "error rendering default template!: %s" [Some e] =
  "error rendering default template!: " +:+ e.
Proof. cbn. now rewrite append_empty_r. Qed.

Lemma format_template_error (file e : string) :
  Js.format "template %s error: %s" [Some file; Some e] =
  "template " +:+ file +:+ " error: " +:+ e.
Proof. cbn. now rewrite append_empty_r. Qed.

(** ** Running the monad *)

Lemma bind_run {A B} (m : M A) (k : A -> M B) (s : streams) :
  (m ≫= k) s =
  match m s with
  | (Continue a, s') => k a s'
  | (Exited code, s') => (Exited code, s')
  end.
Proof. reflexivity. Qed.

Lemma streams_eta (s : streams) :
  {| stdout := stdout s; stderr := stderr s ++ [] |} = s.
Proof. destruct s; simpl. now rewrite app_nil_r. Qed.

(** *** The option loop *)

(** When the loop runs to its end nothing has been printed, no
    option that ends the run was met, and [opts.subject] and
    [opts.to] changed only through [-s] and [-a]. *)
Lemma getopt_loop_continue (parsed : list parsed_option) :
  forall opts s opts' s',
    getopt_loop parsed opts s = (Continue opts', s') ->
    s' = s /\
    Forall (fun o => ends_run o = false) parsed /\
    ((forall x, opt_s x ∉ parsed) -> subject opts' = subject opts) /\
    ((forall x, opt_a x ∈ parsed -> x = "") ->
     to opts' = to opts \/ to opts' = Some "").
Proof.
  induction parsed as [|o rest IH]; intros opts s opts' s' H.
  - injection H as <- <-. repeat split; auto.
  - destruct o; simpl in H;
      try (destruct (checkupdate the_package)); try discriminate;
      apply IH in H as (-> & Hall & Hs & Ha); simpl in *.
    + repeat split; auto.
      * intros Hno. apply Hs. intros x Hx. apply (Hno x). now right.
      * intros Hno. right. destruct Ha as [-> | ->].
        -- intros x Hx. apply Hno. now right.
        -- f_equal. apply Hno. now left.
        -- reflexivity.
    + repeat split; auto.
      * intros Hno. exfalso. apply (Hno optarg). now left.
      * intros Hno. apply Ha. intros x Hx. apply Hno. now right.
    + repeat split; auto.
      * intros Hno. apply Hs. intros x Hx. apply (Hno x). now right.
      * intros Hno. apply Ha. intros x Hx. apply Hno. now right.
Qed.

(** When the loop ends the run, it is [-h], [-u] or [-v] with one
    line on standard output, or the [default] case with the usage
    text on the error stream and status 1. *)
Lemma getopt_loop_exit (parsed : list parsed_option) :
  forall opts s code s',
    getopt_loop parsed opts s = (Exited code, s') ->
    (exists o line, o ∈ parsed /\ (o = opt_h \/ o = opt_u \/ o = opt_v) /\
       s' = {| stdout := stdout s ++ [line]; stderr := stderr s |}) \/
    (code = 1 /\
     s' = {| stdout := stdout s; stderr := stderr s ++ [usage] |}).
Proof.
  induction parsed as [|o rest IH]; intros opts s code s' H.
  - discriminate.
  - destruct o; simpl in H.
    1, 3, 4:
      (apply IH in H as [(o & line & Ho & Hk & ->) | [-> ->]];
       [left; exists o, line; split; [now right | now split] | now right]).
    + injection H as <- <-. left. exists opt_h, usage.
      split; [now left | split; [now left | reflexivity]].
    + destruct (checkupdate the_package) as [ret msg].
      injection H as <- <-. left. exists opt_u, msg.
      split; [now left | split; [right; now left | reflexivity]].
    + injection H as <- <-. left. exists opt_v, (version the_package).
      split; [now left | split; [right; now right | reflexivity]].
    + injection H as <- <-. now right.
Qed.

(** Without an option that ends the run the loop runs to its end. *)
Lemma getopt_loop_total (parsed : list parsed_option) :
  Forall (fun o => ends_run o = false) parsed ->
  forall opts s, exists opts', getopt_loop parsed opts s = (Continue opts', s).
Proof.
  induction 1 as [|o rest Ho _ IH]; intros opts s.
  - now exists opts.
  - destruct o; try discriminate; simpl; apply IH.
Qed.


(** *** The renderer *)

(** Stage 1 always sets [message] to a string: the rendered inline
    template, or the text that it also writes to the error stream. *)
Lemma render_default_run (data : notification) :
  exists (fallback : string) (log : list string),
    (forall s, render_default data s =
       (Continue (Some fallback),
        {| stdout := stdout s; stderr := stderr s ++ log |})) /\
    match ejs_render inline_templ data with
    | returns text => fallback = text /\ log = []
    | throws e_message =>
        fallback = "error rendering default template!: " +:+ e_message /\
        log = [fallback]
    end.
Proof.
  unfold render_default.
  destruct (ejs_render inline_templ data) as [text | e_message].
  - exists text, []. split; [| now split].
    intros s. unfold mret, M_ret. now rewrite streams_eta.
  - exists ("error rendering default template!: " +:+ e_message),
      ["error rendering default template!: " +:+ e_message].
    split; [| now split].
    intros s. rewrite format_default_error. reflexivity.
Qed.

(** Stage 2 assigns [message] only when the read and the render both
    return; otherwise it writes one line to the error stream and
    [message] is what it was. *)
Lemma render_file_run (templfile : string) (data : notification)
    (message : Js.value) :
  exists (result : Js.value) (log : list string),
    (forall s, render_file templfile data message s =
       (Continue result,
        {| stdout := stdout s; stderr := stderr s ++ log |})) /\
    match fs_readFileSync templfile with
    | returns templ =>
        match ejs_render templ data with
        | returns text => result = Some text /\ log = []
        | throws e_message =>
            result = message /\
            log = ["template " +:+ templfile +:+ " error: " +:+ e_message]
        end
    | throws e_message =>
        result = message /\
        log = ["template " +:+ templfile +:+ " error: " +:+ e_message]
    end.
Proof.
  unfold render_file.
  destruct (fs_readFileSync templfile) as [templ | e_message].
  - destruct (ejs_render templ data) as [text | e_message].
    + exists (Some text), []. split; [| now split].
      intros s. unfold mret, M_ret. now rewrite streams_eta.
    + exists message,
        ["template " +:+ templfile +:+ " error: " +:+ e_message].
      split; [| now split].
      intros s. rewrite bind_run. unfold console_error.
      now rewrite format_template_error.
  - exists message,
      ["template " +:+ templfile +:+ " error: " +:+ e_message].
    split; [| now split].
    intros s. rewrite bind_run. unfold console_error.
    now rewrite format_template_error.
Qed.

(** The two stages together: a string comes out in every case,
    standard output is not touched, and the error stream receives the
    lines of the stages that failed. *)
Lemma render_message_run (type : string) (opts : options)
    (data : notification) :
  exists (fallback body : string) (log1 log2 : list string),
    (forall s, render_message type opts data s =
       (Continue (Some body),
        {| stdout := stdout s; stderr := stderr s ++ (log1 ++ log2) |})) /\
    match ejs_render inline_templ data with
    | returns text => fallback = text /\ log1 = []
    | throws e_message =>
        fallback = "error rendering default template!: " +:+ e_message /\
        log1 = [fallback]
    end /\
    let templfile := path_join (templatedir opts) (type +:+ ".html.ejs") in
    match fs_readFileSync templfile with
    | returns templ =>
        match ejs_render templ data with
        | returns text => body = text /\ log2 = []
        | throws e_message =>
            body = fallback /\
            log2 = ["template " +:+ templfile +:+ " error: " +:+ e_message]
        end
    | throws e_message =>
        body = fallback /\
        log2 = ["template " +:+ templfile +:+ " error: " +:+ e_message]
    end.
Proof.
  unfold render_message.
  destruct (render_default_run data) as (fallback & log1 & H1 & Hcase1).
  destruct (render_file_run
              (path_join (templatedir opts) (type +:+ ".html.ejs"))
              data (Some fallback)) as (result & log2 & H2 & Hcase2).
  assert (exists body, result = Some body) as [body ->].
  { revert Hcase2.
    destruct (fs_readFileSync _) as [templ | e];
      [destruct (ejs_render templ data) |]; intros [-> _]; eauto. }
  exists fallback, body, log1, log2. split; [| split; [exact Hcase1 |]].
  - intros s. rewrite bind_run, H1, H2. simpl. now rewrite app_assoc.
  - revert Hcase2. cbv zeta.
    destruct (fs_readFileSync _) as [templ | e];
      [destruct (ejs_render templ data) |]; intros [Hb Hl]; split; congruence.
Qed.

(** Only [templatedir] of [opts] reaches the renderer. *)
Lemma render_message_templatedir (type : string) (opts1 opts2 : options)
    (data : notification) :
  templatedir opts1 = templatedir opts2 ->
  render_message type opts1 data = render_message type opts2 data.
Proof. unfold render_message. now intros ->. Qed.

(** *** The script from the option loop on *)

(** An option that ends the run ends the script with it. *)
Lemma main_exits (env : gmap string string) (parsed : list parsed_option)
    (argv_rest : list string) (code : Z) (s : streams) :
  getopt_loop parsed (initial_options env) streams0 = (Exited code, s) ->
  run (main env parsed argv_rest) = (Exited code, s).
Proof. intros H. unfold run, main. rewrite bind_run. now rewrite H. Qed.

(** Lines 110-115. *)
Lemma main_no_recipient (env : gmap string string)
    (parsed : list parsed_option) (argv_rest : list string) (opts : options) :
  getopt_loop parsed (initial_options env) streams0 = (Continue opts, streams0) ->
  Js.truthy (to opts) = false ->
  run (main env parsed argv_rest) =
  (Exited 1,
   {| stdout := [];
      stderr :=
        ["env NAGIOS_CONTACTEMAIL or `-a <address>` must be supplied!"; "";
         usage] |}).
Proof.
  intros H Hto. unfold run, main. rewrite bind_run. rewrite H.
  cbv zeta. change (classify env (nagios (initial_data env argv_rest)))
    with (type_of env).
  rewrite type_of_truthy, Hto. reflexivity.
Qed.

(** Lines 119-178: the headers, then the body. *)
Lemma main_emits (env : gmap string string) (parsed : list parsed_option)
    (argv_rest : list string) (opts : options) :
  getopt_loop parsed (initial_options env) streams0 = (Continue opts, streams0) ->
  Js.truthy (to opts) = true ->
  forall (body : string) (log : list string),
    (forall s,
       render_message (type_of env) opts
         (with_dump (initial_data env argv_rest)) s =
       (Continue (Some body),
        {| stdout := stdout s; stderr := stderr s ++ log |})) ->
    run (main env parsed argv_rest) =
    (Continue tt,
     {| stdout :=
          ["To: " +:+ Js.to_string (to opts);
           "Reply-To: " +:+ Js.to_string (to opts);
           "Subject: " +:+
             Js.to_string
               (subject (with_subject (type_of env)
                           (initial_data env argv_rest) opts));
           "Content-Type: text/html";
           "";
           body];
        stderr := log |}).
Proof.
  intros H Hto body log Hrender. unfold run, main.
  rewrite bind_run. rewrite H.
  cbv zeta. change (classify env (nagios (initial_data env argv_rest)))
    with (type_of env).
  rewrite type_of_truthy, Hto.
  set (opts' := with_subject _ _ opts).
  assert (Hdir : templatedir opts' = templatedir opts).
  { unfold opts', with_subject. now destruct (negb _). }
  assert (Hto' : to opts' = to opts).
  { unfold opts', with_subject. now destruct (negb _). }
  rewrite (render_message_templatedir _ opts' opts _ Hdir).
  cbn -[Js.format render_message with_dump initial_data].
  unfold mbind, M_bind, mret, M_ret, console_log.
  cbn -[Js.format render_message with_dump initial_data].
  rewrite Hrender.
  cbn -[Js.format render_message with_dump initial_data].
  rewrite Hto', format_To, format_Reply_To, format_Subject.
  reflexivity.
Qed.

(** Every run is one of the three above. *)
Lemma main_cases (env : gmap string string) (parsed : list parsed_option)
    (argv_rest : list string) :
  (exists code s,
     getopt_loop parsed (initial_options env) streams0 = (Exited code, s)) \/
  (exists opts,
     getopt_loop parsed (initial_options env) streams0 =
       (Continue opts, streams0)).
Proof.
  destruct (getopt_loop parsed (initial_options env) streams0)
    as [[opts | code] s] eqn:H.
  - right. exists opts. now apply getopt_loop_continue in H as (-> & _).
  - left. now exists code, s.
Qed.

(** A string is truthy exactly when it is not empty. *)
Lemma truthy_Some (s : string) : Js.truthy (Some s) = true <-> s <> "".
Proof.
  unfold Js.truthy. destruct (String.eqb_spec s ""); simpl; split;
    congruence.
Qed.

(** The usage text starts with its first line. *)
Lemma usage_head : exists rest, usage = String "U" rest.
Proof. eexists. reflexivity. Qed.

(** Every run leaves one of four shapes on the error stream. *)
Lemma main_stderr (env : gmap string string) (parsed : list parsed_option)
    (argv_rest : list string) :
  let log := stderr (run (main env parsed argv_rest)).2 in
  log = [] \/ log = [usage] \/
  log = ["env NAGIOS_CONTACTEMAIL or `-a <address>` must be supplied!"; "";
         usage] \/
  Forall (fun line => exists rest,
            line = "error rendering default template!: " +:+ rest \/
            line = "template " +:+ rest) log.
Proof.
  cbv zeta.
  destruct (main_cases env parsed argv_rest) as [(code & s & H) | (opts & H)].
  - rewrite (main_exits _ _ _ _ _ H).
    apply getopt_loop_exit in H as [(o & line & _ & _ & ->) | [_ ->]];
      simpl; auto.
  - destruct (Js.truthy (to opts)) eqn:Hto.
    + destruct (render_message_run (type_of env) opts
                  (with_dump (initial_data env argv_rest)))
        as (fallback & body & log1 & log2 & Hrun & H1 & H2).
      rewrite (main_emits _ _ _ _ H Hto _ _ Hrun). simpl.
      right; right; right. apply Forall_app. split.
      * destruct (ejs_render inline_templ _) as [text | e].
        -- destruct H1 as [_ ->]. constructor.
        -- destruct H1 as [-> ->]. repeat constructor. eauto.
      * revert H2. cbv zeta.
        destruct (fs_readFileSync _) as [templ | e];
          [destruct (ejs_render templ _) |]; intros [_ ->];
          repeat constructor; eauto.
    + rewrite (main_no_recipient _ _ _ _ H Hto). simpl. auto.
Qed.

(** ** The claims *)

(** C1. For every process environment whose snapshot has no
    [SERVICEATTEMPT] key, the type is [host], whatever other keys the
    snapshot has. *)
Theorem C1_no_service_attempt_is_host (env : gmap string string) :
  snapshot env !! "SERVICEATTEMPT" = None -> type_of env = "host".
Proof.
  intros H. rewrite snapshot_lookup_ne in H by discriminate.
  apply type_of_falsy_attempt.
  change (NAGIOS_ +:+ "SERVICEATTEMPT") with "NAGIOS_SERVICEATTEMPT" in H.
  now rewrite H.
Qed.

(** C2, amended. For every process environment whose snapshot has a
    non-empty [SERVICEATTEMPT], the type is [ack] (the acknowledgement
    type) when the snapshot has a non-empty [NOTIFICATIONAUTHOR], and
    [service] when it has none: the key is missing or its value is the
    empty string. *)
Theorem C2_nonempty_attempt_ack_or_service (env : gmap string string)
    (attempt : string) :
  snapshot env !! "SERVICEATTEMPT" = Some attempt ->
  attempt <> "" ->
  (forall author,
     snapshot env !! "NOTIFICATIONAUTHOR" = Some author -> author <> "" ->
     type_of env = "ack") /\
  (snapshot env !! "NOTIFICATIONAUTHOR" = None \/
   snapshot env !! "NOTIFICATIONAUTHOR" = Some "" ->
   type_of env = "service").
Proof.
  intros H Hne. rewrite snapshot_lookup_ne in H by discriminate.
  change (NAGIOS_ +:+ "SERVICEATTEMPT") with "NAGIOS_SERVICEATTEMPT" in H.
  assert (Hattempt : Js.truthy (env !! "NAGIOS_SERVICEATTEMPT") = true).
  { rewrite H. now apply truthy_Some. }
  rewrite (type_of_truthy_attempt env Hattempt).
  rewrite (snapshot_lookup_ne env "NOTIFICATIONAUTHOR") by discriminate.
  change (NAGIOS_ +:+ "NOTIFICATIONAUTHOR")
    with "NAGIOS_NOTIFICATIONAUTHOR".
  split.
  - intros author -> Hauthor.
    now rewrite (proj2 (truthy_Some author) Hauthor).
  - now intros [-> | ->].
Qed.

(** C10. The classifier tests the value of [NAGIOS_SERVICEATTEMPT],
    not the presence of the key: when the variable is set to the empty
    string the snapshot has the key [SERVICEATTEMPT], and the type is
    [host], as it is for the same environment without the variable. *)
Theorem C10_empty_attempt_is_host (env : gmap string string) :
  env !! "NAGIOS_SERVICEATTEMPT" = Some "" ->
  snapshot env !! "SERVICEATTEMPT" = Some "" /\
  type_of env = "host" /\
  type_of (delete "NAGIOS_SERVICEATTEMPT" env) = type_of env.
Proof.
  intros H. split; [| split].
  - rewrite snapshot_lookup_ne by discriminate. exact H.
  - apply type_of_falsy_attempt. now rewrite H.
  - rewrite !type_of_falsy_attempt; [reflexivity | now rewrite H |].
    now rewrite lookup_delete_eq.
Qed.

(** C7, at the input where the code departs from it. The variable
    [NAGIOS___proto__] passes the prefix test and its stripped name is
    [__proto__], but the assignment of line 80 creates no property:
    the snapshot of an environment that holds only this variable is
    empty. *)
Theorem C7_proto_variable_is_dropped :
  proto_env !! "NAGIOS___proto__" = Some "x" /\
  Js.starts_with NAGIOS_ "NAGIOS___proto__" = true /\
  Js.replace_prefix NAGIOS_ "NAGIOS___proto__" = "__proto__" /\
  snapshot proto_env !! "__proto__" = None /\
  snapshot proto_env = ∅.
Proof.
  repeat split; vm_compute; reflexivity.
Qed.

(** C8. For every process environment the classifier yields a
    non-empty type, and no run writes the line of the branch guarded
    by [!type] to the error stream: that branch is never taken. *)
Theorem C8_type_branch_unreachable (env : gmap string string)
    (parsed : list parsed_option) (argv_rest : list string) :
  Js.truthy (Some (type_of env)) = true /\
  "a type must be specified as the first argument!"
    ∉ stderr (run (main env parsed argv_rest)).2.
Proof.
  split; [apply type_of_truthy |].
  destruct (main_stderr env parsed argv_rest) as [H | [H | [H | H]]];
    cbv zeta in H.
  - rewrite H. apply not_elem_of_nil.
  - rewrite H. destruct usage_head as [rest ->].
    intros Hin. apply list_elem_of_singleton in Hin. discriminate.
  - rewrite H. destruct usage_head as [rest ->].
    intros Hin. repeat (apply elem_of_cons in Hin as [Hin | Hin];
                        [discriminate |]).
    now apply not_elem_of_nil in Hin.
  - intros Hin. rewrite Forall_forall in H.
    destruct (H _ Hin) as [rest [Heq | Heq]];
      rewrite append_cons in Heq; discriminate.
Qed.

(** C3, amended. When no [-h], [-u] or [-v] option is given, the [-a]
    flag supplies no non-empty address and [NAGIOS_CONTACTEMAIL] is
    unset or empty, the process exits with status 1, the usage text is
    on the error stream, and nothing is on standard output. *)
Theorem C3_no_recipient_exits_1 (env : gmap string string)
    (parsed : list parsed_option) (argv_rest : list string) :
  (forall o, o ∈ parsed -> o <> opt_h /\ o <> opt_u /\ o <> opt_v) ->
  (forall x, opt_a x ∈ parsed -> x = "") ->
  Js.truthy (env !! "NAGIOS_CONTACTEMAIL") = false ->
  exists out,
    run (main env parsed argv_rest) = (Exited 1, out) /\
    stdout out = [] /\
    usage ∈ stderr out.
Proof.
  intros Hopts Haddr Henv.
  destruct (main_cases env parsed argv_rest) as [(code & s & H) | (opts & H)].
  - rewrite (main_exits _ _ _ _ _ H).
    apply getopt_loop_exit in H as [(o & line & Ho & Hk & _) | [-> ->]].
    + destruct (Hopts o Ho) as (? & ? & ?).
      destruct Hk as [-> | [-> | ->]]; congruence.
    + eexists. split; [reflexivity |]. simpl. split; [reflexivity |].
      apply list_elem_of_singleton. reflexivity.
  - assert (Hto : Js.truthy (to opts) = false).
    { apply getopt_loop_continue in H as (_ & _ & _ & Hto).
      destruct (Hto Haddr) as [-> | ->]; [exact Henv | reflexivity]. }
    rewrite (main_no_recipient _ _ _ _ H Hto).
    eexists. split; [reflexivity |]. simpl. split; [reflexivity |].
    rewrite !elem_of_cons. auto.
Qed.

(** A run that reaches the end of the script passed the option loop
    with a non-empty recipient and printed the headers and the body. *)
Lemma main_continue_inv (env : gmap string string)
    (parsed : list parsed_option) (argv_rest : list string) (out : streams) :
  run (main env parsed argv_rest) = (Continue tt, out) ->
  exists opts addr fallback body log1 log2,
    getopt_loop parsed (initial_options env) streams0 =
      (Continue opts, streams0) /\
    to opts = Some addr /\ addr <> "" /\
    (forall s,
       render_message (type_of env) opts
         (with_dump (initial_data env argv_rest)) s =
       (Continue (Some body),
        {| stdout := stdout s; stderr := stderr s ++ (log1 ++ log2) |})) /\
    match ejs_render inline_templ (with_dump (initial_data env argv_rest)) with
    | returns text => fallback = text /\ log1 = []
    | throws e_message =>
        fallback = "error rendering default template!: " +:+ e_message /\
        log1 = [fallback]
    end /\
    (let templfile :=
       path_join (templatedir opts) (type_of env +:+ ".html.ejs") in
     match fs_readFileSync templfile with
     | returns templ =>
         match ejs_render templ (with_dump (initial_data env argv_rest)) with
         | returns text => body = text /\ log2 = []
         | throws e_message =>
             body = fallback /\
             log2 = ["template " +:+ templfile +:+ " error: " +:+ e_message]
         end
     | throws e_message =>
         body = fallback /\
         log2 = ["template " +:+ templfile +:+ " error: " +:+ e_message]
     end) /\
    out =
    {| stdout :=
         ["To: " +:+ addr;
          "Reply-To: " +:+ addr;
          "Subject: " +:+
            Js.to_string
              (subject (with_subject (type_of env)
                          (initial_data env argv_rest) opts));
          "Content-Type: text/html";
          "";
          body];
       stderr := log1 ++ log2 |}.
Proof.
  intros Hrun.
  destruct (main_cases env parsed argv_rest) as [(code & s & H) | (opts & H)].
  - rewrite (main_exits _ _ _ _ _ H) in Hrun. discriminate.
  - destruct (Js.truthy (to opts)) eqn:Hto.
    + destruct (render_message_run (type_of env) opts
                  (with_dump (initial_data env argv_rest)))
        as (fallback & body & log1 & log2 & Hrender & H1 & H2).
      rewrite (main_emits _ _ _ _ H Hto _ _ Hrender) in Hrun.
      injection Hrun as <-.
      destruct (to opts) as [addr |] eqn:Haddr; [| discriminate].
      exists opts, addr, fallback, body, log1, log2.
      repeat split; auto. now apply truthy_Some.
    + rewrite (main_no_recipient _ _ _ _ H Hto) in Hrun. discriminate.
Qed.

(** The default subject of each type, with [String(v)] for the value
    of each key. *)
Lemma default_subject_host (data : notification) :
  default_subject "host" data =
  Js.to_string (nagios data !! "HOSTADDRESS") +:+ " is " +:+
  Js.to_string (nagios data !! "HOSTSTATE").
Proof. unfold default_subject. simpl. apply format_s_is_s. Qed.

Lemma default_subject_service (data : notification) :
  default_subject "service" data =
  Js.to_string (nagios data !! "SERVICESTATE") +:+ ": " +:+
  Js.to_string (nagios data !! "HOSTADDRESS") +:+ " - " +:+
  Js.to_string (nagios data !! "SERVICEDESC").
Proof. unfold default_subject. simpl. apply format_s_s_s. Qed.

Lemma default_subject_ack (data : notification) :
  default_subject "ack" data =
  Js.to_string (nagios data !! "NOTIFICATIONTYPE") +:+ ": " +:+
  Js.to_string (nagios data !! "HOSTADDRESS") +:+ " - " +:+
  Js.to_string (nagios data !! "SERVICEDESC").
Proof. unfold default_subject. simpl. apply format_s_s_s. Qed.

Lemma with_subject_falsy (type : string) (data : notification)
    (opts : options) :
  Js.truthy (subject opts) = false ->
  subject (with_subject type data opts) = Some (default_subject type data).
Proof. intros H. unfold with_subject. now rewrite H. Qed.

(** C6. On every run that reaches the end of the script, standard
    output is, in order: [To: <addr>], [Reply-To: <addr>] with the same
    address, [Subject: <subject>], [Content-Type: text/html], an empty
    line, and the rendered message, with nothing after it. The address
    is the non-empty [opts.to], the subject is [opts.subject] after
    lines 119-143, and the body is what the renderer returned. *)
Theorem C6_output_layout (env : gmap string string)
    (parsed : list parsed_option) (argv_rest : list string) (out : streams) :
  run (main env parsed argv_rest) = (Continue tt, out) ->
  exists opts addr subj body log,
    getopt_loop parsed (initial_options env) streams0 =
      (Continue opts, streams0) /\
    to opts = Some addr /\ addr <> "" /\
    subject (with_subject (type_of env) (initial_data env argv_rest) opts) =
      Some subj /\
    render_message (type_of env) opts
      (with_dump (initial_data env argv_rest)) streams0 =
      (Continue (Some body), {| stdout := []; stderr := log |}) /\
    stdout out =
      ["To: " +:+ addr;
       "Reply-To: " +:+ addr;
       "Subject: " +:+ subj;
       "Content-Type: text/html";
       "";
       body].
Proof.
  intros Hrun.
  apply main_continue_inv in Hrun
    as (opts & addr & fallback & body & log1 & log2
        & Hopts & Hto & Hne & Hrender & _ & _ & ->).
  assert (exists subj,
            subject (with_subject (type_of env)
                       (initial_data env argv_rest) opts) = Some subj)
    as [subj Hsubj].
  { unfold with_subject.
    destruct (Js.truthy (subject opts)) eqn:Hs; simpl; [| eauto].
    destruct (subject opts); [eauto | discriminate]. }
  exists opts, addr, subj, body, (log1 ++ log2)%list.
  repeat split; auto.
  simpl. now rewrite Hsubj.
Qed.

(** C5. When no [-s] option is given, a run that reaches the end of
    the script prints [Subject: <subj>] as its third line, where for a
    snapshot that has the keys of the format [subj] is
    [<HOSTADDRESS> is <HOSTSTATE>] for a host,
    [<SERVICESTATE>: <HOSTADDRESS> - <SERVICEDESC>] for a service and
    [<NOTIFICATIONTYPE>: <HOSTADDRESS> - <SERVICEDESC>] for an
    acknowledgement. With [NAGIOS_HOSTADDRESS=web1],
    [NAGIOS_HOSTSTATE=DOWN] and no [NAGIOS_SERVICEATTEMPT] the line is
    [Subject: web1 is DOWN]; with [NAGIOS_SERVICEATTEMPT=1],
    [NAGIOS_SERVICESTATE=CRITICAL], [NAGIOS_HOSTADDRESS=web1],
    [NAGIOS_SERVICEDESC=disk] and no author it is
    [Subject: CRITICAL: web1 - disk]. *)
Theorem C5_default_subject (env : gmap string string)
    (parsed : list parsed_option) (argv_rest : list string) (out : streams) :
  (forall x, opt_s x ∉ parsed) ->
  run (main env parsed argv_rest) = (Continue tt, out) ->
  exists subj,
    stdout out !! 2%nat = Some ("Subject: " +:+ subj) /\
    (type_of env = "host" ->
     forall address state,
       snapshot env !! "HOSTADDRESS" = Some address ->
       snapshot env !! "HOSTSTATE" = Some state ->
       subj = address +:+ " is " +:+ state) /\
    (type_of env = "service" ->
     forall state address desc,
       snapshot env !! "SERVICESTATE" = Some state ->
       snapshot env !! "HOSTADDRESS" = Some address ->
       snapshot env !! "SERVICEDESC" = Some desc ->
       subj = state +:+ ": " +:+ address +:+ " - " +:+ desc) /\
    (type_of env = "ack" ->
     forall ntype address desc,
       snapshot env !! "NOTIFICATIONTYPE" = Some ntype ->
       snapshot env !! "HOSTADDRESS" = Some address ->
       snapshot env !! "SERVICEDESC" = Some desc ->
       subj = ntype +:+ ": " +:+ address +:+ " - " +:+ desc) /\
    (env !! "NAGIOS_SERVICEATTEMPT" = None ->
     env !! "NAGIOS_HOSTADDRESS" = Some "web1" ->
     env !! "NAGIOS_HOSTSTATE" = Some "DOWN" ->
     stdout out !! 2%nat = Some "Subject: web1 is DOWN") /\
    (env !! "NAGIOS_SERVICEATTEMPT" = Some "1" ->
     env !! "NAGIOS_SERVICESTATE" = Some "CRITICAL" ->
     env !! "NAGIOS_HOSTADDRESS" = Some "web1" ->
     env !! "NAGIOS_SERVICEDESC" = Some "disk" ->
     env !! "NAGIOS_NOTIFICATIONAUTHOR" = None ->
     stdout out !! 2%nat = Some "Subject: CRITICAL: web1 - disk").
Proof.
  intros Hno_s Hrun.
  apply main_continue_inv in Hrun
    as (opts & addr & fallback & body & log1 & log2
        & Hopts & Hto & Hne & _ & _ & _ & ->).
  apply getopt_loop_continue in Hopts as (_ & _ & Hsubj & _).
  specialize (Hsubj Hno_s). simpl in Hsubj.
  rewrite with_subject_falsy by now rewrite Hsubj.
  exists (default_subject (type_of env) (initial_data env argv_rest)).
  split; [reflexivity |].
  repeat split.
  - intros -> address state Ha Hs.
    rewrite default_subject_host. simpl. now rewrite Ha, Hs.
  - intros -> state address desc Hs Ha Hd.
    rewrite default_subject_service. simpl. now rewrite Hs, Ha, Hd.
  - intros -> ntype address desc Hn Ha Hd.
    rewrite default_subject_ack. simpl. now rewrite Hn, Ha, Hd.
  - intros Hattempt Ha Hs.
    rewrite (type_of_falsy_attempt env) by now rewrite Hattempt.
    rewrite default_subject_host. simpl.
    rewrite !snapshot_lookup_ne by discriminate.
    change (NAGIOS_ +:+ "HOSTADDRESS") with "NAGIOS_HOSTADDRESS".
    change (NAGIOS_ +:+ "HOSTSTATE") with "NAGIOS_HOSTSTATE".
    now rewrite Ha, Hs.
  - intros Hattempt Hs Ha Hd Hauthor.
    rewrite (type_of_truthy_attempt env) by now rewrite Hattempt.
    rewrite Hauthor. simpl.
    rewrite default_subject_service. simpl.
    rewrite !snapshot_lookup_ne by discriminate.
    change (NAGIOS_ +:+ "HOSTADDRESS") with "NAGIOS_HOSTADDRESS".
    change (NAGIOS_ +:+ "SERVICESTATE") with "NAGIOS_SERVICESTATE".
    change (NAGIOS_ +:+ "SERVICEDESC") with "NAGIOS_SERVICEDESC".
    now rewrite Ha, Hs, Hd.
Qed.

(** C9, amended. Building the default subject never fails when keys
    of the format are missing from the snapshot: when the option loop
    has run to its end with a recipient and without a subject, the
    script runs to its end and its third line is the subject of the
    type, in which each missing key is rendered as the text
    [undefined]. *)
Theorem C9_missing_keys_render_undefined (env : gmap string string)
    (parsed : list parsed_option) (argv_rest : list string) (opts : options) :
  getopt_loop parsed (initial_options env) streams0 =
    (Continue opts, streams0) ->
  Js.truthy (to opts) = true ->
  Js.truthy (subject opts) = false ->
  let shown k := default "undefined" (snapshot env !! k) in
  exists out subj,
    run (main env parsed argv_rest) = (Continue tt, out) /\
    stdout out !! 2%nat = Some ("Subject: " +:+ subj) /\
    ((type_of env = "host" /\
      subj = shown "HOSTADDRESS" +:+ " is " +:+ shown "HOSTSTATE") \/
     (type_of env = "service" /\
      subj = shown "SERVICESTATE" +:+ ": " +:+ shown "HOSTADDRESS" +:+
             " - " +:+ shown "SERVICEDESC") \/
     (type_of env = "ack" /\
      subj = shown "NOTIFICATIONTYPE" +:+ ": " +:+ shown "HOSTADDRESS" +:+
             " - " +:+ shown "SERVICEDESC")).
Proof.
  intros Hopts Hto Hsubj shown.
  destruct (render_message_run (type_of env) opts
              (with_dump (initial_data env argv_rest)))
    as (fallback & body & log1 & log2 & Hrender & _ & _).
  eexists. exists (default_subject (type_of env) (initial_data env argv_rest)).
  split; [apply (main_emits _ _ _ _ Hopts Hto _ _ Hrender) |].
  split; [simpl; now rewrite with_subject_falsy |].
  assert (Hshown : forall k, Js.to_string (snapshot env !! k) = shown k).
  { intros k. unfold shown. now destruct (snapshot env !! k). }
  destruct (type_of_cases env) as [Ht | [Ht | Ht]]; rewrite Ht.
  - left. split; [reflexivity |].
    rewrite default_subject_host. simpl. now rewrite !Hshown.
  - right; right. split; [reflexivity |].
    rewrite default_subject_ack. simpl. now rewrite !Hshown.
  - right; left. split; [reflexivity |].
    rewrite default_subject_service. simpl. now rewrite !Hshown.
Qed.

(** C4. Whatever the template engine and the file system do, a run
    that has passed the option loop with a recipient reaches the end of
    the script and prints a body as its sixth and last line. The data
    handed to the engine is the notification context (positional
    arguments, snapshot, package) with [d] set to the JSON dump of that
    context. Stage 1 renders the inline template
    [<html><body><pre><%= d %></pre></body></html>] with it; when that
    render throws, the fallback is the text
    [error rendering default template!: <message>], which is also
    written to the error stream. Stage 2 reads
    [<templatedir>/<type>.html.ejs]; the body is its rendering when
    the read and the render both return, and otherwise the fallback of
    stage 1, with the line [template <file> error: <message>] on the
    error stream. *)
Theorem C4_message_always_set (env : gmap string string)
    (parsed : list parsed_option) (argv_rest : list string)
    (opts : options) :
  getopt_loop parsed (initial_options env) streams0 =
    (Continue opts, streams0) ->
  Js.truthy (to opts) = true ->
  let context :=
    {| args := argv_rest; nagios := snapshot env; package := the_package;
       d := None |} in
  let data :=
    {| args := argv_rest; nagios := snapshot env; package := the_package;
       d := Some (json_stringify context) |} in
  let templfile :=
    path_join (templatedir opts) (type_of env +:+ ".html.ejs") in
  exists (fallback body : string) (out : streams),
    run (main env parsed argv_rest) = (Continue tt, out) /\
    length (stdout out) = 6%nat /\
    last (stdout out) = Some body /\
    match ejs_render "<html><body><pre><%= d %></pre></body></html>" data with
    | returns text => fallback = text
    | throws e_message =>
        fallback = "error rendering default template!: " +:+ e_message /\
        fallback ∈ stderr out
    end /\
    match fs_readFileSync templfile with
    | returns templ =>
        match ejs_render templ data with
        | returns text => body = text
        | throws e_message =>
            body = fallback /\
            ("template " +:+ templfile +:+ " error: " +:+ e_message)
              ∈ stderr out
        end
    | throws e_message =>
        body = fallback /\
        ("template " +:+ templfile +:+ " error: " +:+ e_message)
          ∈ stderr out
    end.
Proof.
  intros Hopts Hto context data templfile.
  destruct (render_message_run (type_of env) opts
              (with_dump (initial_data env argv_rest)))
    as (fallback & body & log1 & log2 & Hrender & H1 & H2).
  exists fallback, body. eexists.
  split; [apply (main_emits _ _ _ _ Hopts Hto _ _ Hrender) |].
  split; [reflexivity |]. split; [reflexivity |].
  change (with_dump (initial_data env argv_rest)) with data in H1, H2.
  change inline_templ
    with "<html><body><pre><%= d %></pre></body></html>" in H1.
  cbv zeta in H2. fold templfile in H2. simpl. split.
  - destruct (ejs_render _ data) as [text | e].
    + tauto.
    + destruct H1 as [Hf ->]. split; [exact Hf |].
      apply elem_of_app. left. apply list_elem_of_singleton. reflexivity.
  - destruct (fs_readFileSync templfile) as [templ | e];
      [destruct (ejs_render templ data) |]; destruct H2 as [Hb ->];
      try exact Hb; (split; [exact Hb |]);
      apply elem_of_app; right; apply list_elem_of_singleton; reflexivity.
Qed.

(** ** Further properties of the snapshot and the classifier *)

(** The snapshot holds [v] under [k] exactly when [k] is not
    [__proto__] and the variable [NAGIOS_k] has the value [v]: every
    property comes from a prefixed variable, with its value unchanged,
    and the key [__proto__] is never a property. *)
Theorem snapshot_lookup_Some (env : gmap string string) (k v : string) :
  snapshot env !! k = Some v <->
  k <> "__proto__" /\ env !! ("NAGIOS_" +:+ k) = Some v.
Proof.
  rewrite snapshot_lookup. fold NAGIOS_.
  destruct (decide (k = "__proto__")) as [-> | Hk]; split.
  - discriminate.
  - intros [H _]. now contradiction H.
  - now split.
  - now intros [_ H].
Qed.

(** A variable whose name does not start with [NAGIOS_] has no effect
    on the snapshot, whether it is set, changed or removed. *)
Theorem snapshot_ignores_unprefixed (env : gmap string string)
    (key val : string) :
  Js.starts_with NAGIOS_ key = false ->
  snapshot (<[key:=val]> env) = snapshot env /\
  snapshot (delete key env) = snapshot env.
Proof.
  intros Hkey.
  assert (Hne : forall k, NAGIOS_ +:+ k <> key).
  { intros k <-. rewrite starts_with_append in Hkey. discriminate. }
  split; apply map_eq; intros k; rewrite !snapshot_lookup;
    destruct (decide (k = "__proto__")); try reflexivity.
  - apply lookup_insert_ne. intros H. now apply (Hne k).
  - apply lookup_delete_ne. intros H. now apply (Hne k).
Qed.

(** Setting the variable [NAGIOS_k], for [k] other than [__proto__],
    sets the key [k] of the snapshot and nothing else; removing the
    variable removes the key. *)
Theorem snapshot_insert_delete (env : gmap string string) (k v : string) :
  k <> "__proto__" ->
  snapshot (<["NAGIOS_" +:+ k := v]> env) = <[k:=v]> (snapshot env) /\
  snapshot (delete ("NAGIOS_" +:+ k) env) = delete k (snapshot env).
Proof.
  intros Hk. fold NAGIOS_.
  split; apply map_eq; intros k'; rewrite snapshot_lookup.
  - destruct (decide (k = k')) as [<- | Hne].
    + rewrite !lookup_insert_eq. now destruct (decide (k = "__proto__")).
    + rewrite (lookup_insert_ne (snapshot env)) by exact Hne.
      rewrite snapshot_lookup.
      destruct (decide (k' = "__proto__")); [reflexivity |].
      apply lookup_insert_ne. intros H. apply append_inj_r in H. congruence.
  - destruct (decide (k = k')) as [<- | Hne].
    + rewrite !lookup_delete_eq. now destruct (decide (k = "__proto__")).
    + rewrite (lookup_delete_ne (snapshot env)) by exact Hne.
      rewrite snapshot_lookup.
      destruct (decide (k' = "__proto__")); [reflexivity |].
      apply lookup_delete_ne. intros H. apply append_inj_r in H. congruence.
Qed.

(** With a non-empty [NAGIOS_SERVICEATTEMPT], the type is [service]
    exactly when [NAGIOS_NOTIFICATIONAUTHOR] is unset or empty, and
    [ack] exactly when it is set to a non-empty string; it is never
    [host]. *)
Theorem type_of_with_attempt (env : gmap string string) (attempt : string) :
  env !! "NAGIOS_SERVICEATTEMPT" = Some attempt ->
  attempt <> "" ->
  (type_of env = "service" <->
   env !! "NAGIOS_NOTIFICATIONAUTHOR" = None \/
   env !! "NAGIOS_NOTIFICATIONAUTHOR" = Some "") /\
  (type_of env = "ack" <->
   exists author,
     env !! "NAGIOS_NOTIFICATIONAUTHOR" = Some author /\ author <> "") /\
  type_of env <> "host".
Proof.
  intros H Hne.
  assert (Hattempt : Js.truthy (env !! "NAGIOS_SERVICEATTEMPT") = true).
  { rewrite H. now apply truthy_Some. }
  rewrite (type_of_truthy_attempt env Hattempt).
  destruct (env !! "NAGIOS_NOTIFICATIONAUTHOR") as [author |] eqn:Ha.
  - destruct (String.eqb_spec author "") as [-> | Hauthor].
    + simpl. repeat split; try discriminate; auto.
      intros (a & [= <-] & Hcontra). now contradiction Hcontra.
    + rewrite (proj2 (truthy_Some author) Hauthor).
      repeat split; try discriminate; eauto.
      intros [H' | H']; congruence.
  - simpl. repeat split; try discriminate; auto.
    intros (a & [=] & _).
Qed.

(** The type depends on two variables only: environments that agree
    on [NAGIOS_SERVICEATTEMPT] and [NAGIOS_NOTIFICATIONAUTHOR] have the
    same type. *)
Theorem type_of_two_variables (env1 env2 : gmap string string) :
  env1 !! "NAGIOS_SERVICEATTEMPT" = env2 !! "NAGIOS_SERVICEATTEMPT" ->
  env1 !! "NAGIOS_NOTIFICATIONAUTHOR" = env2 !! "NAGIOS_NOTIFICATIONAUTHOR" ->
  type_of env1 = type_of env2.
Proof.
  intros Ha Hn. unfold type_of, classify, Js.get.
  rewrite !(snapshot_lookup_ne _ "NOTIFICATIONAUTHOR") by discriminate.
  change (NAGIOS_ +:+ "NOTIFICATIONAUTHOR")
    with "NAGIOS_NOTIFICATIONAUTHOR".
  now rewrite Ha, Hn.
Qed.

(** ** Further properties of the option loop *)

(** The loop over a list of options is the loop over its first part
    followed by the loop over the rest. *)
Lemma getopt_loop_app (l1 l2 : list parsed_option) :
  forall opts s opts1 s1,
    getopt_loop l1 opts s = (Continue opts1, s1) ->
    getopt_loop (l1 ++ l2) opts s = getopt_loop l2 opts1 s1.
Proof.
  induction l1 as [|o l1 IH]; intros opts s opts1 s1 H.
  - injection H as <- <-. reflexivity.
  - destruct o; simpl in H |- *;
      try (destruct (checkupdate the_package)); try discriminate;
      now apply IH.
Qed.

(** The options before the first one that ends the run only update
    [opts]. *)
Lemma getopt_loop_prefix (pre rest : list parsed_option) (opts : options)
    (s : streams) :
  Forall (fun o => ends_run o = false) pre ->
  exists opts1,
    getopt_loop (pre ++ rest) opts s = getopt_loop rest opts1 s.
Proof.
  intros Hpre.
  destruct (getopt_loop_total pre Hpre opts s) as [opts1 H1].
  exists opts1. now apply getopt_loop_app.
Qed.

(** Without [-a], [-s] or [-t] the loop leaves the field of that
    option as it was. *)
Lemma getopt_loop_keeps (parsed : list parsed_option) :
  forall opts s opts' s',
    getopt_loop parsed opts s = (Continue opts', s') ->
    ((forall x, opt_a x ∉ parsed) -> to opts' = to opts) /\
    ((forall x, opt_s x ∉ parsed) -> subject opts' = subject opts) /\
    ((forall x, opt_t x ∉ parsed) -> templatedir opts' = templatedir opts).
Proof.
  induction parsed as [|o rest IH]; intros opts s opts' s' H.
  - injection H as <- _. auto.
  - assert (Hrest : forall (P : parsed_option -> Prop),
              (forall p, P p -> p ∉ o :: rest) -> forall p, P p -> p ∉ rest).
    { intros P HP p Hp Hin. apply (HP p Hp). now right. }
    destruct o; simpl in H;
      try (destruct (checkupdate the_package)); try discriminate;
      apply IH in H as (Ha & Hs & Ht); simpl in *;
      (split; [| split]); intros Hno;
      try (exfalso; eapply Hno; left; fail).
    + apply Hs. intros x Hx. apply (Hno x). now right.
    + apply Ht. intros x Hx. apply (Hno x). now right.
    + apply Ha. intros x Hx. apply (Hno x). now right.
    + apply Ht. intros x Hx. apply (Hno x). now right.
    + apply Ha. intros x Hx. apply (Hno x). now right.
    + apply Hs. intros x Hx. apply (Hno x). now right.
Qed.

(** What each option that ends the run leaves behind. *)
Lemma getopt_loop_exit_code (parsed : list parsed_option) :
  forall opts s code s',
    getopt_loop parsed opts s = (Exited code, s') ->
    (opt_h ∈ parsed /\ code = 0 /\
     s' = {| stdout := stdout s ++ [usage]; stderr := stderr s |}) \/
    (opt_v ∈ parsed /\ code = 0 /\
     s' = {| stdout := stdout s ++ [version the_package];
             stderr := stderr s |}) \/
    (opt_u ∈ parsed /\ code = (checkupdate the_package).1 /\
     s' = {| stdout := stdout s ++ [(checkupdate the_package).2];
             stderr := stderr s |}) \/
    (opt_unknown ∈ parsed /\ code = 1 /\
     s' = {| stdout := stdout s; stderr := stderr s ++ [usage] |}).
Proof.
  induction parsed as [|o rest IH]; intros opts s code s' H.
  - discriminate.
  - destruct o; simpl in H.
    1, 3, 4:
      (apply IH in H
         as [(Hin & Hc) | [(Hin & Hc) | [(Hin & Hc) | (Hin & Hc)]]];
       [left | right; left | right; right; left | right; right; right];
       (split; [now right | exact Hc])).
    + injection H as <- <-. left. split; [now left | now split].
    + destruct (checkupdate the_package) as [ret msg].
      injection H as <- <-. right; right; left.
      split; [now left | now split].
    + injection H as <- <-. right; left. split; [now left | now split].
    + injection H as <- <-. right; right; right.
      split; [now left | now split].
Qed.

(** When [-h] or [-v] is the first option that ends the run, the
    script prints the usage text, respectively the version, on
    standard output, writes nothing to the error stream and exits
    with status 0, whatever the environment, the options after it and
    the positional arguments are. *)
Theorem help_or_version_first (env : gmap string string)
    (pre post : list parsed_option) (argv_rest : list string) :
  Forall (fun o => ends_run o = false) pre ->
  run (main env (pre ++ opt_h :: post) argv_rest) =
    (Exited 0, {| stdout := [usage]; stderr := [] |}) /\
  run (main env (pre ++ opt_v :: post) argv_rest) =
    (Exited 0, {| stdout := [version the_package]; stderr := [] |}).
Proof.
  intros Hpre. split; apply main_exits.
  - destruct (getopt_loop_prefix pre (opt_h :: post) (initial_options env)
                streams0 Hpre) as [opts1 ->]. reflexivity.
  - destruct (getopt_loop_prefix pre (opt_v :: post) (initial_options env)
                streams0 Hpre) as [opts1 ->]. reflexivity.
Qed.

(** When an unrecognised option is the first one that ends the run,
    the script exits with status 1, prints nothing on standard output,
    and the usage text is the last line of the error stream, whatever
    the environment and the options after it are. *)
Theorem unknown_option_first (env : gmap string string)
    (pre post : list parsed_option) (argv_rest : list string) :
  Forall (fun o => ends_run o = false) pre ->
  exists out,
    run (main env (pre ++ opt_unknown :: post) argv_rest) = (Exited 1, out) /\
    stdout out = [] /\
    last (stderr out) = Some usage.
Proof.
  intros Hpre. eexists. split; [| split].
  - apply main_exits.
    destruct (getopt_loop_prefix pre (opt_unknown :: post)
                (initial_options env) streams0 Hpre) as [opts1 ->].
    reflexivity.
  - reflexivity.
  - reflexivity.
Qed.

(** When [-u] is the first option that ends the run, the only output
    is the message of the update check on standard output, and the
    status is the one the check reports: no recipient is needed and no
    mail is printed. *)
Theorem updates_option_first (env : gmap string string)
    (pre post : list parsed_option) (argv_rest : list string) :
  Forall (fun o => ends_run o = false) pre ->
  run (main env (pre ++ opt_u :: post) argv_rest) =
    (Exited (checkupdate the_package).1,
     {| stdout := [(checkupdate the_package).2]; stderr := [] |}).
Proof.
  intros Hpre. apply main_exits.
  destruct (getopt_loop_prefix pre (opt_u :: post)
              (initial_options env) streams0 Hpre) as [opts1 ->].
  simpl. now destruct (checkupdate the_package).
Qed.

(** When the loop runs to its end over a list, it also does from the
    options that some option of the list and those after it find. *)
Lemma getopt_loop_split (pre post : list parsed_option) (o : parsed_option)
    (opts0 opts : options) (s : streams) :
  getopt_loop (pre ++ o :: post) opts0 s = (Continue opts, s) ->
  exists opts1, getopt_loop (o :: post) opts1 s = (Continue opts, s).
Proof.
  intros H.
  assert (Hpre : Forall (fun o => ends_run o = false) pre).
  { apply getopt_loop_continue in H as (_ & Hall & _).
    now apply Forall_app in Hall as [Hall _]. }
  destruct (getopt_loop_prefix pre (o :: post) opts0 s Hpre) as [opts1 Heq].
  exists opts1. now rewrite <- Heq.
Qed.

(** When the loop runs to its end, each of [opts.to], [opts.subject]
    and [opts.templatedir] holds the argument of the last [-a], [-s],
    respectively [-t] option. *)
Theorem getopt_last_option_wins (pre post : list parsed_option)
    (x : string) (opts0 opts : options) (s : streams) :
  (getopt_loop (pre ++ opt_a x :: post) opts0 s = (Continue opts, s) ->
   (forall y, opt_a y ∉ post) -> to opts = Some x) /\
  (getopt_loop (pre ++ opt_s x :: post) opts0 s = (Continue opts, s) ->
   (forall y, opt_s y ∉ post) -> subject opts = Some x) /\
  (getopt_loop (pre ++ opt_t x :: post) opts0 s = (Continue opts, s) ->
   (forall y, opt_t y ∉ post) -> templatedir opts = x).
Proof.
  repeat split; intros H Hpost;
    apply getopt_loop_split in H as [opts1 H]; simpl in H;
    apply getopt_loop_keeps in H as (Ha & Hs & Ht).
  - now rewrite (Ha Hpost).
  - now rewrite (Hs Hpost).
  - now rewrite (Ht Hpost).
Qed.

(** When the loop runs to its end, an option that was not given leaves
    its default: the recipient is [NAGIOS_CONTACTEMAIL], the subject is
    unset, and the template directory is [templates] under the
    directory of the script. *)
Theorem getopt_defaults (env : gmap string string)
    (parsed : list parsed_option) (opts : options) (s : streams) :
  getopt_loop parsed (initial_options env) s = (Continue opts, s) ->
  ((forall x, opt_a x ∉ parsed) -> to opts = env !! "NAGIOS_CONTACTEMAIL") /\
  ((forall x, opt_s x ∉ parsed) -> subject opts = None) /\
  ((forall x, opt_t x ∉ parsed) ->
   templatedir opts = path_join dirname "templates").
Proof. intros H. now apply getopt_loop_keeps in H. Qed.

(** ** Further properties of the whole script *)

(** A list of [-a], [-s] and [-t] options whose last [-a] has the
    argument [x] ends the loop with [opts.to = x]. *)
Lemma getopt_loop_last_a (env : gmap string string)
    (pre post : list parsed_option) (x : string) :
  Forall (fun o => ends_run o = false) (pre ++ opt_a x :: post) ->
  (forall y, opt_a y ∉ post) ->
  exists opts,
    getopt_loop (pre ++ opt_a x :: post) (initial_options env) streams0 =
      (Continue opts, streams0) /\
    to opts = Some x.
Proof.
  intros Hall Hpost.
  destruct (getopt_loop_total _ Hall (initial_options env) streams0)
    as [opts H].
  exists opts. split; [exact H |].
  apply getopt_loop_split in H as [opts1 H]. simpl in H.
  apply getopt_loop_keeps in H as (Ha & _). now rewrite (Ha Hpost).
Qed.

(** When the last [-a] option has a non-empty argument and no option
    ends the run, the script runs to its end, and the [To] and
    [Reply-To] headers both carry that argument, whether
    [NAGIOS_CONTACTEMAIL] is set or not. *)
Theorem address_flag_overrides_env (env : gmap string string)
    (pre post : list parsed_option) (x : string)
    (argv_rest : list string) :
  Forall (fun o => ends_run o = false) (pre ++ opt_a x :: post) ->
  (forall y, opt_a y ∉ post) ->
  x <> "" ->
  exists out,
    run (main env (pre ++ opt_a x :: post) argv_rest) = (Continue tt, out) /\
    stdout out !! 0%nat = Some ("To: " +:+ x) /\
    stdout out !! 1%nat = Some ("Reply-To: " +:+ x).
Proof.
  intros Hall Hpost Hx.
  destruct (getopt_loop_last_a env pre post x Hall Hpost) as (opts & H & Hto).
  assert (Htruthy : Js.truthy (to opts) = true).
  { rewrite Hto. now apply truthy_Some. }
  destruct (render_message_run (type_of env) opts
              (with_dump (initial_data env argv_rest)))
    as (fallback & body & log1 & log2 & Hrender & _ & _).
  eexists. split; [apply (main_emits _ _ _ _ H Htruthy _ _ Hrender) |].
  simpl. now rewrite Hto.
Qed.

(** When the last [-a] option has the empty string as its argument the
    run fails for want of a recipient, even with [NAGIOS_CONTACTEMAIL]
    set: status 1, nothing on standard output. *)
Theorem empty_address_flag_is_fatal (env : gmap string string)
    (pre post : list parsed_option) (argv_rest : list string) :
  Forall (fun o => ends_run o = false) (pre ++ opt_a "" :: post) ->
  (forall y, opt_a y ∉ post) ->
  run (main env (pre ++ opt_a "" :: post) argv_rest) =
  (Exited 1,
   {| stdout := [];
      stderr :=
        ["env NAGIOS_CONTACTEMAIL or `-a <address>` must be supplied!"; "";
         usage] |}).
Proof.
  intros Hall Hpost.
  destruct (getopt_loop_last_a env pre post "" Hall Hpost) as (opts & H & Hto).
  apply (main_no_recipient _ _ _ _ H). now rewrite Hto.
Qed.

(** On a run that reaches the end of the script, a non-empty argument
    of the last [-s] option is the subject, whatever the environment
    and the type are; an empty argument is treated as no [-s] at all
    and the default subject of the type is printed. *)
Theorem subject_flag_overrides (env : gmap string string)
    (pre post : list parsed_option) (x : string)
    (argv_rest : list string) (out : streams) :
  run (main env (pre ++ opt_s x :: post) argv_rest) = (Continue tt, out) ->
  (forall y, opt_s y ∉ post) ->
  (x <> "" -> stdout out !! 2%nat = Some ("Subject: " +:+ x)) /\
  (x = "" ->
   stdout out !! 2%nat =
   Some ("Subject: " +:+
         default_subject (type_of env) (initial_data env argv_rest))).
Proof.
  intros Hrun Hpost.
  apply main_continue_inv in Hrun
    as (opts & addr & fallback & body & log1 & log2
        & Hopts & _ & _ & _ & _ & _ & ->).
  assert (Hsubj : subject opts = Some x).
  { apply getopt_loop_split in Hopts as [opts1 H]. simpl in H.
    apply getopt_loop_keeps in H as (_ & Hs & _). now rewrite (Hs Hpost). }
  split.
  - intros Hx. unfold with_subject.
    rewrite Hsubj, (proj2 (truthy_Some x) Hx). simpl. now rewrite Hsubj.
  - intros ->. rewrite with_subject_falsy by now rewrite Hsubj.
    reflexivity.
Qed.

(** Without [-u], a run that does not reach the end of the script
    either exits with status 0 after one line on standard output and
    nothing on the error stream ([-h], [-v]), or exits with status 1
    with nothing on standard output and the usage text as the last
    line of the error stream: a failed run never prints a part of the
    mail. *)
Theorem early_exit_shapes (env : gmap string string)
    (parsed : list parsed_option) (argv_rest : list string)
    (code : Z) (out : streams) :
  opt_u ∉ parsed ->
  run (main env parsed argv_rest) = (Exited code, out) ->
  (code = 0 /\ (exists line, stdout out = [line]) /\ stderr out = []) \/
  (code = 1 /\ stdout out = [] /\ last (stderr out) = Some usage).
Proof.
  intros Hno_u Hrun.
  destruct (main_cases env parsed argv_rest) as [(c & s & H) | (opts & H)].
  - rewrite (main_exits _ _ _ _ _ H) in Hrun. injection Hrun as <- <-.
    apply getopt_loop_exit_code in H
      as [(_ & -> & ->) | [(_ & -> & ->) | [(Hin & _) | (_ & -> & ->)]]].
    + left. simpl. eauto.
    + left. simpl. eauto.
    + contradiction.
    + right. simpl. auto.
  - destruct (Js.truthy (to opts)) eqn:Hto.
    + destruct (render_message_run (type_of env) opts
                  (with_dump (initial_data env argv_rest)))
        as (fallback & body & log1 & log2 & Hrender & _ & _).
      rewrite (main_emits _ _ _ _ H Hto _ _ Hrender) in Hrun. discriminate.
    + rewrite (main_no_recipient _ _ _ _ H Hto) in Hrun.
      injection Hrun as <- <-. right. simpl. auto.
Qed.

(** The positional arguments reach the templates only: two runs that
    differ in them alone end the same way (both at the end of the
    script, or both with the same exit status) and agree on the five
    header lines. *)
Theorem headers_independent_of_args (env : gmap string string)
    (parsed : list parsed_option) (argv1 argv2 : list string) :
  (run (main env parsed argv1)).1 = (run (main env parsed argv2)).1 /\
  take 5 (stdout (run (main env parsed argv1)).2) =
  take 5 (stdout (run (main env parsed argv2)).2).
Proof.
  destruct (main_cases env parsed argv1) as [(c & s & H) | (opts & H)].
  - rewrite !(main_exits _ _ _ _ _ H). now split.
  - destruct (Js.truthy (to opts)) eqn:Hto.
    + destruct (render_message_run (type_of env) opts
                  (with_dump (initial_data env argv1)))
        as (f1 & body1 & l1 & l1' & Hrender1 & _ & _).
      destruct (render_message_run (type_of env) opts
                  (with_dump (initial_data env argv2)))
        as (f2 & body2 & l2 & l2' & Hrender2 & _ & _).
      rewrite (main_emits _ _ argv1 _ H Hto _ _ Hrender1).
      rewrite (main_emits _ _ argv2 _ H Hto _ _ Hrender2).
      now split.
    + rewrite !(main_no_recipient _ _ _ _ H Hto). now split.
Qed.

(** On a run that reaches the end of the script the error stream has
    at most two lines, and it is empty exactly when the inline
    template rendered and the template file of the type was read and
    rendered. *)
Theorem stderr_empty_iff_clean (env : gmap string string)
    (parsed : list parsed_option) (argv_rest : list string)
    (opts : options) (out : streams) :
  getopt_loop parsed (initial_options env) streams0 =
    (Continue opts, streams0) ->
  run (main env parsed argv_rest) = (Continue tt, out) ->
  let data := with_dump (initial_data env argv_rest) in
  let templfile :=
    path_join (templatedir opts) (type_of env +:+ ".html.ejs") in
  (length (stderr out) <= 2)%nat /\
  (stderr out = [] <->
   (exists text, ejs_render inline_templ data = returns text) /\
   (exists templ text,
      fs_readFileSync templfile = returns templ /\
      ejs_render templ data = returns text)).
Proof.
  intros Hopts Hrun.
  apply main_continue_inv in Hrun
    as (opts' & addr & fallback & body & log1 & log2
        & Hopts' & _ & _ & _ & H1 & H2 & ->).
  rewrite Hopts in Hopts'. injection Hopts' as <-.
  cbv zeta in *. simpl.
  destruct (ejs_render inline_templ _) as [text | e].
  - destruct H1 as [_ ->].
    destruct (fs_readFileSync _) as [templ | e] eqn:Hread.
    + destruct (ejs_render templ _) as [text' | e] eqn:Hfile.
      * destruct H2 as [_ ->]. simpl. split; [lia |].
        split; [| reflexivity]. intros _. split; [eauto |].
        exists templ, text'. now split.
      * destruct H2 as [_ ->]. simpl. split; [lia |].
        split; [discriminate |].
        intros (_ & templ' & text2 & [= <-] & Hr). congruence.
    + destruct H2 as [_ ->]. simpl. split; [lia |].
      split; [discriminate |].
      intros (_ & templ' & text2 & [=] & _).
  - destruct H1 as [_ ->]. split.
    + rewrite length_app.
      destruct (fs_readFileSync _) as [templ | e'];
        [destruct (ejs_render templ _) as [text' | e'] |];
        destruct H2 as [_ ->]; simpl; lia.
    + split; [discriminate |]. intros ((text & [=]) & _).
Qed.

(** When the options are [-s] and [-t] only and [NAGIOS_CONTACTEMAIL]
    is a non-empty address, the script runs to its end for every
    behaviour of the template engine and the file system, throwing
    ones included: it prints six lines, the first of which is the [To]
    header with that address. *)
Theorem env_recipient_run_completes (env : gmap string string)
    (parsed : list parsed_option) (argv_rest : list string)
    (addr : string) :
  Forall (fun o => ends_run o = false) parsed ->
  (forall x, opt_a x ∉ parsed) ->
  env !! "NAGIOS_CONTACTEMAIL" = Some addr ->
  addr <> "" ->
  exists out,
    run (main env parsed argv_rest) = (Continue tt, out) /\
    length (stdout out) = 6%nat /\
    stdout out !! 0%nat = Some ("To: " +:+ addr).
Proof.
  intros Hall Hno_a Henv Haddr.
  destruct (getopt_loop_total _ Hall (initial_options env) streams0)
    as [opts H].
  assert (Hto : to opts = Some addr).
  { pose proof H as H'. apply getopt_loop_keeps in H' as (Ha & _).
    rewrite (Ha Hno_a). exact Henv. }
  assert (Htruthy : Js.truthy (to opts) = true).
  { rewrite Hto. now apply truthy_Some. }
  destruct (render_message_run (type_of env) opts
              (with_dump (initial_data env argv_rest)))
    as (fallback & body & log1 & log2 & Hrender & _ & _).
  eexists. split; [apply (main_emits _ _ _ _ H Htruthy _ _ Hrender) |].
  simpl. now rewrite Hto.
Qed.

(** On a run that reaches the end of the script, when the file
    [<type>.html.ejs] in the directory of the last [-t] option is read
    and rendered, its rendering is the body, whatever the inline
    template gave. *)
Theorem template_dir_flag_selects_file (env : gmap string string)
    (pre post : list parsed_option) (dir : string)
    (argv_rest : list string) (out : streams) (templ text : string) :
  run (main env (pre ++ opt_t dir :: post) argv_rest) = (Continue tt, out) ->
  (forall y, opt_t y ∉ post) ->
  fs_readFileSync (path_join dir (type_of env +:+ ".html.ejs")) =
    returns templ ->
  ejs_render templ (with_dump (initial_data env argv_rest)) = returns text ->
  last (stdout out) = Some text.
Proof.
  intros Hrun Hpost Hread Hfile.
  apply main_continue_inv in Hrun
    as (opts & addr & fallback & body & log1 & log2
        & Hopts & _ & _ & _ & _ & H2 & ->).
  assert (Hdir : templatedir opts = dir).
  { apply getopt_loop_split in Hopts as [opts1 H]. simpl in H.
    apply getopt_loop_keeps in H as (_ & _ & Ht). now rewrite (Ht Hpost). }
  cbv zeta in H2. rewrite Hdir, Hread, Hfile in H2.
  destruct H2 as [-> _]. reflexivity.
Qed.

End Script.

(** ** The claims on the examples *)

(** C1 on the host example. *)
Lemma C1_witness_host_env :
  snapshot host_env !! "SERVICEATTEMPT" = None /\ type_of host_env = "host".
Proof.
  split; [reflexivity |].
  apply (C1_no_service_attempt_is_host host_env). reflexivity.
Defined.

(** C2 as stated fails when [NAGIOS_SERVICEATTEMPT] is set to the
    empty string: the snapshot has the key [SERVICEATTEMPT] and a
    non-empty [NOTIFICATIONAUTHOR], and the type is [host], not
    [ack]. *)
Lemma C2_counterexample_empty_attempt :
  is_Some (snapshot empty_attempt_env !! "SERVICEATTEMPT") /\
  snapshot empty_attempt_env !! "NOTIFICATIONAUTHOR" = Some "bob" /\
  "bob" <> "" /\
  type_of empty_attempt_env = "host" /\
  type_of empty_attempt_env <> "ack".
Proof.
  split; [exists ""; reflexivity |].
  split; [reflexivity |].
  split; [discriminate |].
  split; [reflexivity | vm_compute; discriminate].
Qed.

(** The amended C2 on the acknowledgement and service examples. *)
Lemma C2_witness_ack_and_service :
  snapshot ack_env !! "SERVICEATTEMPT" = Some "1" /\
  type_of ack_env = "ack" /\
  type_of service_env = "service" /\
  type_of empty_author_env = "service".
Proof.
  split; [reflexivity |]. split; [| split].
  - apply (proj1 (C2_nonempty_attempt_ack_or_service ack_env "1"
                    eq_refl ltac:(discriminate)) "bob");
      [reflexivity | discriminate].
  - apply (proj2 (C2_nonempty_attempt_ack_or_service service_env "1"
                    eq_refl ltac:(discriminate))).
    left. reflexivity.
  - apply (proj2 (C2_nonempty_attempt_ack_or_service empty_author_env "1"
                    eq_refl ltac:(discriminate))).
    right. reflexivity.
Defined.

(** C3 as stated fails for [-h] without a recipient: the usage text
    goes to standard output and the status is 0. *)
Lemma C3_counterexample_help :
  (forall x, opt_a x ∉ [opt_h]) /\
  (∅ : gmap string string) !! "NAGIOS_CONTACTEMAIL" = None /\
  run (main sample_package "/opt/opsview" sample_path_join sample_stringify
         sample_render no_file sample_checkupdate ∅ [opt_h] []) =
  (Exited 0, {| stdout := [usage]; stderr := [] |}).
Proof.
  split; [| split; reflexivity].
  intros x Hx. apply list_elem_of_singleton in Hx. discriminate.
Qed.

(** The amended C3 on a run with [-t] and no recipient. *)
Lemma C3_witness_no_recipient :
  exists out,
    run (main sample_package "/opt/opsview" sample_path_join sample_stringify
           sample_render no_file sample_checkupdate
           ∅ [opt_t "/etc/templates"] []) = (Exited 1, out) /\
    stdout out = [] /\
    usage ∈ stderr out.
Proof.
  apply (C3_no_recipient_exits_1 sample_package "/opt/opsview"
           sample_path_join sample_stringify sample_render no_file
           sample_checkupdate ∅ [opt_t "/etc/templates"] []).
  - intros o Ho. apply list_elem_of_singleton in Ho. subst o.
    repeat split; discriminate.
  - intros x Hx. apply list_elem_of_singleton in Hx. discriminate.
  - reflexivity.
Defined.

(** C4 on the host example, without a template file: the run reaches
    the end of the script and the body is the inline template as the
    sample renderer returns it. *)
Lemma C4_witness_fallback_body :
  exists out,
    run (main sample_package "/opt/opsview" sample_path_join
           sample_stringify sample_render no_file sample_checkupdate
           host_env [] []) = (Continue tt, out) /\
    last (stdout out) =
      Some "<html><body><pre><%= d %></pre></body></html>".
Proof.
  destruct (C4_message_always_set sample_package "/opt/opsview"
              sample_path_join sample_stringify sample_render no_file
              sample_checkupdate host_env [] []
              (initial_options "/opt/opsview" sample_path_join host_env)
              eq_refl eq_refl)
    as (fallback & body & out & Hrun & _ & Hlast & Hfallback & Hbody).
  exists out. split; [exact Hrun |].
  simpl in Hfallback, Hbody. destruct Hbody as [-> _].
  rewrite Hlast, Hfallback. reflexivity.
Defined.

(** C5 on the two examples of the specification. *)
Lemma C5_witness_examples :
  stdout (run (main sample_package "/opt/opsview" sample_path_join
                 sample_stringify sample_render no_file
                 sample_checkupdate host_env [] [])).2 !! 2%nat =
    Some "Subject: web1 is DOWN" /\
  stdout (run (main sample_package "/opt/opsview" sample_path_join
                 sample_stringify sample_render no_file
                 sample_checkupdate service_env [] [])).2 !! 2%nat =
    Some "Subject: CRITICAL: web1 - disk".
Proof.
  split.
  - destruct (C5_default_subject sample_package "/opt/opsview"
                sample_path_join sample_stringify sample_render no_file
                sample_checkupdate host_env [] [] _
                ltac:(intros x Hx; inversion Hx)
                ltac:(vm_compute; reflexivity))
      as (subj & _ & _ & _ & _ & Hhost & _).
    apply Hhost; reflexivity.
  - destruct (C5_default_subject sample_package "/opt/opsview"
                sample_path_join sample_stringify sample_render no_file
                sample_checkupdate service_env [] [] _
                ltac:(intros x Hx; inversion Hx)
                ltac:(vm_compute; reflexivity))
      as (subj & _ & _ & _ & _ & _ & Hservice).
    apply Hservice; reflexivity.
Defined.

(** C6 on the host example. *)
Lemma C6_witness_host_run :
  exists addr subj body,
    stdout (run (main sample_package "/opt/opsview" sample_path_join
                   sample_stringify sample_render no_file
                   sample_checkupdate host_env [] [])).2 =
    ["To: " +:+ addr; "Reply-To: " +:+ addr; "Subject: " +:+ subj;
     "Content-Type: text/html"; ""; body].
Proof.
  destruct (C6_output_layout sample_package "/opt/opsview"
              sample_path_join sample_stringify sample_render no_file
              sample_checkupdate host_env [] [] _
              ltac:(vm_compute; reflexivity))
    as (opts & addr & subj & body & log & _ & _ & _ & _ & _ & Hout).
  exists addr, subj, body. exact Hout.
Defined.

(** C9 as stated fails where keys are missing: with only the recipient
    set, [HOSTADDRESS] and [HOSTSTATE] are missing from the snapshot
    and the subject is [undefined is undefined], not the format with
    empty text for each key. *)
Lemma C9_counterexample_undefined_text :
  snapshot bare_env !! "HOSTADDRESS" = None /\
  snapshot bare_env !! "HOSTSTATE" = None /\
  type_of bare_env = "host" /\
  default_subject "host" (initial_data sample_package bare_env []) =
    "undefined is undefined" /\
  stdout (run (main sample_package "/opt/opsview" sample_path_join
                 sample_stringify sample_render no_file
                 sample_checkupdate bare_env [] [])).2 !! 2%nat =
    Some "Subject: undefined is undefined" /\
  "Subject: undefined is undefined" <> "Subject:  is ".
Proof.
  repeat split; try (vm_compute; reflexivity). discriminate.
Qed.

(** The amended C9 on the same environment. *)
Lemma C9_witness_bare_env :
  exists out,
    run (main sample_package "/opt/opsview" sample_path_join sample_stringify
           sample_render no_file sample_checkupdate bare_env [] []) =
      (Continue tt, out) /\
    stdout out !! 2%nat = Some "Subject: undefined is undefined".
Proof.
  destruct (C9_missing_keys_render_undefined sample_package "/opt/opsview"
              sample_path_join sample_stringify sample_render no_file
              sample_checkupdate bare_env [] []
              (initial_options "/opt/opsview" sample_path_join bare_env)
              eq_refl eq_refl eq_refl)
    as (out & subj & Hrun & Hline & Hcases).
  exists out. split; [exact Hrun |]. rewrite Hline.
  destruct Hcases as [[_ ->] | [[Ht _] | [Ht _]]].
  - reflexivity.
  - vm_compute in Ht. discriminate.
  - vm_compute in Ht. discriminate.
Defined.

(** C10 on the environment with an empty [NAGIOS_SERVICEATTEMPT]. *)
Lemma C10_witness_empty_attempt :
  snapshot empty_attempt_env !! "SERVICEATTEMPT" = Some "" /\
  type_of empty_attempt_env = "host" /\
  type_of (delete "NAGIOS_SERVICEATTEMPT" empty_attempt_env) =
    type_of empty_attempt_env.
Proof.
  apply (C10_empty_attempt_is_host empty_attempt_env). reflexivity.
Defined.

(** ** The template file the script reads *)

(** The run depends on the file system only through the file
    [<templatedir>/<type>.html.ejs]: two file systems that agree on
    that one path give the same outcome and the same output, whatever
    else they hold. *)
Theorem only_the_type_template_is_read
    (the_package : package_json) (dirname : string)
    (path_join : string -> string -> string)
    (json_stringify : notification -> string)
    (ejs_render : string -> notification -> try string)
    (fs1 fs2 : string -> try string)
    (checkupdate : package_json -> Z * string)
    (env : gmap string string) (parsed : list parsed_option)
    (argv_rest : list string) :
  (forall opts,
     getopt_loop the_package checkupdate parsed
       (initial_options dirname path_join env) streams0 =
       (Continue opts, streams0) ->
     fs1 (path_join (templatedir opts) (type_of env +:+ ".html.ejs")) =
     fs2 (path_join (templatedir opts) (type_of env +:+ ".html.ejs"))) ->
  run (main the_package dirname path_join json_stringify ejs_render fs1
         checkupdate env parsed argv_rest) =
  run (main the_package dirname path_join json_stringify ejs_render fs2
         checkupdate env parsed argv_rest).
Proof.
  intros Hagree.
  destruct (getopt_loop the_package checkupdate parsed
              (initial_options dirname path_join env) streams0)
    as [[opts | code] s] eqn:H.
  - pose proof H as H'. apply getopt_loop_continue in H' as (-> & _).
    specialize (Hagree opts eq_refl).
    destruct (Js.truthy (to opts)) eqn:Hto.
    + destruct (render_message_run path_join ejs_render fs1 (type_of env)
                  opts (with_dump json_stringify
                          (initial_data the_package env argv_rest)))
        as (fallback & body & log1 & log2 & Hr1 & _ & _).
      assert (Hr2 : forall s,
                render_message path_join ejs_render fs2 (type_of env) opts
                  (with_dump json_stringify
                     (initial_data the_package env argv_rest)) s =
                (Continue (Some body),
                 {| stdout := stdout s;
                    stderr := stderr s ++ (log1 ++ log2) |})).
      { intros s0. rewrite <- Hr1. unfold render_message, render_file.
        now rewrite Hagree. }
      rewrite (main_emits the_package dirname path_join json_stringify
                 ejs_render fs1 checkupdate env parsed argv_rest opts
                 H Hto _ _ Hr1).
      rewrite (main_emits the_package dirname path_join json_stringify
                 ejs_render fs2 checkupdate env parsed argv_rest opts
                 H Hto _ _ Hr2).
      reflexivity.
    + rewrite (main_no_recipient the_package dirname path_join
                 json_stringify ejs_render fs1 checkupdate env parsed
                 argv_rest opts H Hto).
      rewrite (main_no_recipient the_package dirname path_join
                 json_stringify ejs_render fs2 checkupdate env parsed
                 argv_rest opts H Hto).
      reflexivity.
  - rewrite (main_exits the_package dirname path_join json_stringify
               ejs_render fs1 checkupdate env parsed argv_rest code s H).
    rewrite (main_exits the_package dirname path_join json_stringify
               ejs_render fs2 checkupdate env parsed argv_rest code s H).
    reflexivity.
Qed.

(** ** The further properties on the examples *)

Lemma snapshot_ignores_unprefixed_witness :
  snapshot (<["PATH" := "/usr/bin"]> host_env) = snapshot host_env /\
  snapshot (delete "PATH" host_env) = snapshot host_env.
Proof.
  apply (snapshot_ignores_unprefixed host_env "PATH" "/usr/bin").
  reflexivity.
Defined.

Lemma snapshot_insert_delete_witness :
  snapshot (<["NAGIOS_" +:+ "HOSTSTATE" := "UP"]> host_env) =
    <["HOSTSTATE" := "UP"]> (snapshot host_env) /\
  snapshot (delete ("NAGIOS_" +:+ "HOSTSTATE") host_env) =
    delete "HOSTSTATE" (snapshot host_env).
Proof.
  apply (snapshot_insert_delete host_env "HOSTSTATE" "UP"). discriminate.
Defined.

Lemma type_of_with_attempt_witness :
  type_of service_env = "service" /\ type_of service_env <> "host".
Proof.
  destruct (type_of_with_attempt service_env "1" eq_refl
              ltac:(discriminate)) as (Hservice & _ & Hhost).
  split; [| exact Hhost]. apply Hservice. left. reflexivity.
Defined.

Lemma type_of_two_variables_witness : type_of host_env = type_of bare_env.
Proof. apply (type_of_two_variables host_env bare_env); reflexivity. Defined.

Lemma help_or_version_first_witness :
  run (main sample_package "/opt/opsview" sample_path_join sample_stringify
         sample_render no_file sample_checkupdate
         ∅ ([opt_a "ops@example.org"] ++ opt_h :: [opt_unknown]) []) =
    (Exited 0, {| stdout := [usage]; stderr := [] |}) /\
  run (main sample_package "/opt/opsview" sample_path_join sample_stringify
         sample_render no_file sample_checkupdate
         ∅ ([opt_a "ops@example.org"] ++ opt_v :: [opt_unknown]) []) =
    (Exited 0, {| stdout := [version sample_package]; stderr := [] |}).
Proof.
  apply (help_or_version_first sample_package "/opt/opsview"
           sample_path_join sample_stringify sample_render no_file
           sample_checkupdate ∅ [opt_a "ops@example.org"] [opt_unknown] []).
  repeat constructor.
Defined.

Lemma unknown_option_first_witness :
  exists out,
    run (main sample_package "/opt/opsview" sample_path_join sample_stringify
           sample_render no_file sample_checkupdate
           host_env ([opt_s "down"] ++ opt_unknown :: [opt_h]) []) =
      (Exited 1, out) /\
    stdout out = [] /\
    last (stderr out) = Some usage.
Proof.
  apply (unknown_option_first sample_package "/opt/opsview"
           sample_path_join sample_stringify sample_render no_file
           sample_checkupdate host_env [opt_s "down"] [opt_h] []).
  repeat constructor.
Defined.

Lemma updates_option_first_witness :
  run (main sample_package "/opt/opsview" sample_path_join sample_stringify
         sample_render no_file sample_checkupdate
         ∅ ([opt_t "/etc/templates"] ++ opt_u :: []) []) =
    (Exited (sample_checkupdate sample_package).1,
     {| stdout := [(sample_checkupdate sample_package).2]; stderr := [] |}).
Proof.
  apply (updates_option_first sample_package "/opt/opsview"
           sample_path_join sample_stringify sample_render no_file
           sample_checkupdate ∅ [opt_t "/etc/templates"] [] []).
  repeat constructor.
Defined.

Lemma getopt_last_option_wins_witness :
  to {| subject := None; templatedir := "/etc/templates";
        to := Some "second@example.org" |} = Some "second@example.org".
Proof.
  apply (proj1 (getopt_last_option_wins sample_package sample_checkupdate
                  [opt_a "first@example.org"] [opt_t "/etc/templates"]
                  "second@example.org"
                  {| subject := None; templatedir := "/opt"; to := None |}
                  {| subject := None; templatedir := "/etc/templates";
                     to := Some "second@example.org" |}
                  streams0)).
  - reflexivity.
  - intros y Hy. apply list_elem_of_singleton in Hy. discriminate.
Defined.

Lemma getopt_defaults_witness :
  to {| subject := Some "down"; templatedir := "/opt/opsview/templates";
        to := Some "a@b.com" |} = host_env !! "NAGIOS_CONTACTEMAIL".
Proof.
  apply (proj1 (getopt_defaults sample_package "/opt/opsview"
                  sample_path_join sample_checkupdate host_env
                  [opt_s "down"]
                  {| subject := Some "down";
                     templatedir := "/opt/opsview/templates";
                     to := Some "a@b.com" |}
                  streams0 eq_refl)).
  intros x Hx. apply list_elem_of_singleton in Hx. discriminate.
Defined.

Lemma address_flag_overrides_env_witness :
  exists out,
    run (main sample_package "/opt/opsview" sample_path_join sample_stringify
           sample_render no_file sample_checkupdate
           host_env ([] ++ opt_a "ops@example.org" :: []) []) =
      (Continue tt, out) /\
    stdout out !! 0%nat = Some ("To: " +:+ "ops@example.org") /\
    stdout out !! 1%nat = Some ("Reply-To: " +:+ "ops@example.org").
Proof.
  apply (address_flag_overrides_env sample_package "/opt/opsview"
           sample_path_join sample_stringify sample_render no_file
           sample_checkupdate host_env [] [] "ops@example.org" []).
  - repeat constructor.
  - intros y Hy. inversion Hy.
  - discriminate.
Defined.

Lemma empty_address_flag_is_fatal_witness :
  run (main sample_package "/opt/opsview" sample_path_join sample_stringify
         sample_render no_file sample_checkupdate
         host_env ([] ++ opt_a "" :: []) []) =
  (Exited 1,
   {| stdout := [];
      stderr :=
        ["env NAGIOS_CONTACTEMAIL or `-a <address>` must be supplied!"; "";
         usage] |}).
Proof.
  apply (empty_address_flag_is_fatal sample_package "/opt/opsview"
           sample_path_join sample_stringify sample_render no_file
           sample_checkupdate host_env [] [] []).
  - repeat constructor.
  - intros y Hy. inversion Hy.
Defined.

Lemma subject_flag_overrides_witness :
  stdout (run (main sample_package "/opt/opsview" sample_path_join
                 sample_stringify sample_render no_file sample_checkupdate
                 host_env ([] ++ opt_s "disk is full" :: []) [])).2
    !! 2%nat = Some ("Subject: " +:+ "disk is full").
Proof.
  apply (proj1 (subject_flag_overrides sample_package "/opt/opsview"
                  sample_path_join sample_stringify sample_render no_file
                  sample_checkupdate host_env [] [] "disk is full" [] _
                  ltac:(vm_compute; reflexivity)
                  ltac:(intros y Hy; inversion Hy))).
  discriminate.
Defined.

Lemma early_exit_shapes_witness :
  (0 = 0 /\ (exists line, [usage] = [line]) /\ @nil string = []) \/
  (0 = 1 /\ [usage] = [] /\ last (@nil string) = Some usage).
Proof.
  apply (early_exit_shapes sample_package "/opt/opsview" sample_path_join
           sample_stringify sample_render no_file sample_checkupdate
           ∅ [opt_h] [] 0 {| stdout := [usage]; stderr := [] |}).
  - intros H. apply list_elem_of_singleton in H. discriminate.
  - reflexivity.
Defined.

Lemma stderr_empty_iff_clean_witness :
  (length (stderr (run (main sample_package "/opt/opsview" sample_path_join
                          sample_stringify sample_render no_file
                          sample_checkupdate host_env [] [])).2) <= 2)%nat.
Proof.
  apply (stderr_empty_iff_clean sample_package "/opt/opsview"
           sample_path_join sample_stringify sample_render no_file
           sample_checkupdate host_env [] []
           (initial_options "/opt/opsview" sample_path_join host_env) _
           eq_refl ltac:(vm_compute; reflexivity)).
Defined.

Lemma env_recipient_run_completes_witness :
  exists out,
    run (main sample_package "/opt/opsview" sample_path_join sample_stringify
           sample_render no_file sample_checkupdate
           host_env [opt_t "/etc/templates"] []) = (Continue tt, out) /\
    length (stdout out) = 6%nat /\
    stdout out !! 0%nat = Some ("To: " +:+ "a@b.com").
Proof.
  apply (env_recipient_run_completes sample_package "/opt/opsview"
           sample_path_join sample_stringify sample_render no_file
           sample_checkupdate host_env [opt_t "/etc/templates"] [] "a@b.com").
  - repeat constructor.
  - intros x Hx. apply list_elem_of_singleton in Hx. discriminate.
  - reflexivity.
  - discriminate.
Defined.

Lemma template_dir_flag_selects_file_witness :
  last (stdout (run (main sample_package "/opt/opsview" sample_path_join
                       sample_stringify sample_render
                       (all_but "/opt/opsview/templates/host.html.ejs")
                       sample_checkupdate host_env
                       ([] ++ opt_t "/etc/templates" :: []) [])).2) =
  Some "<p>alert</p>".
Proof.
  apply (template_dir_flag_selects_file sample_package "/opt/opsview"
           sample_path_join sample_stringify sample_render
           (all_but "/opt/opsview/templates/host.html.ejs")
           sample_checkupdate host_env [] [] "/etc/templates" [] _
           "<p>alert</p>" "<p>alert</p>").
  - vm_compute. reflexivity.
  - intros y Hy. inversion Hy.
  - reflexivity.
  - reflexivity.
Defined.

Lemma only_the_type_template_is_read_witness :
  run (main sample_package "/opt/opsview" sample_path_join sample_stringify
         sample_render no_file sample_checkupdate host_env [] []) =
  run (main sample_package "/opt/opsview" sample_path_join sample_stringify
         sample_render (all_but "/opt/opsview/templates/host.html.ejs")
         sample_checkupdate host_env [] []).
Proof.
  apply (only_the_type_template_is_read sample_package "/opt/opsview"
           sample_path_join sample_stringify sample_render no_file
           (all_but "/opt/opsview/templates/host.html.ejs")
           sample_checkupdate host_env [] []).
  intros opts H. injection H as <-. reflexivity.
Defined.
